(** * MamaCare FCM notification backend ([backend-fcm/main.py])

    A shallow embedding of the multi-token push fan-out
    ([send_notifications_to_user]), of the token store helpers
    ([get_user_fcm_tokens], [remove_unregistered_token]) and of the
    persist-then-notify endpoint ([update_appointment_status]), followed by
    the properties of the specification that concern them.

    Firestore documents are finite maps from field names to Python values,
    the two collections are finite maps from document ids to documents.  The
    program runs in a state-and-exception monad over a [World]; everything
    the program cannot decide by itself (module globals, the FCM provider,
    faults of the Firestore client, the server clock, [str()] of a value
    that is not a string) is gathered in an [Env]. *)

From Stdlib Require Import ZArith Ascii String List Lia Bool.
From stdpp Require Import base option list strings gmap.

Open Scope string_scope.

(** ** Python values held in Firestore documents *)

#[local] Set Warnings "-register-all".

Inductive PyVal : Type :=
| PNone
| PBool (b : bool)
| PInt (z : Z)
| PStr (s : string)
| PTimestamp (t : Z)
| PList (l : list PyVal).

(** Python truthiness, as used by [if token], [if not patient_id], ... *)
Definition truthy (v : PyVal) : bool :=
  match v with
  | PNone => false
  | PBool b => b
  | PInt z => negb (z =? 0)%Z
  | PStr s => negb (s =? "")
  | PTimestamp _ => true
  | PList l => match l with [] => false | _ :: _ => true end
  end.

Definition str_truthy (s : string) : bool := negb (s =? "").

(** [s == v] for a Python [str] [s]: a string equals only an equal string. *)
Definition str_eq (s : string) (v : PyVal) : bool :=
  match v with PStr t => (s =? t) | _ => false end.

(** [dict.get(key)]: [None] when the key is absent. *)
Definition dict_get (d : gmap string PyVal) (key : string) : PyVal :=
  match d !! key with Some v => v | None => PNone end.

(** [s in l] for a [str] [s] *)
Definition py_in (s : string) (l : list PyVal) : bool :=
  existsb (str_eq s) l.

(** [l.remove(s)]: drops the first element equal to [s]. *)
Fixpoint py_remove (s : string) (l : list PyVal) : list PyVal :=
  match l with
  | [] => []
  | v :: l' => if str_eq s v then l' else v :: py_remove s l'
  end.

(** [str.capitalize] on ASCII text: the first character in upper case, the
    others in lower case. *)
Definition upper (c : ascii) : ascii :=
  let n := nat_of_ascii c in
  if (97 <=? n)%nat && (n <=? 122)%nat then ascii_of_nat (n - 32) else c.

Definition lower (c : ascii) : ascii :=
  let n := nat_of_ascii c in
  if (65 <=? n)%nat && (n <=? 90)%nat then ascii_of_nat (n + 32) else c.

Fixpoint lower_all (s : string) : string :=
  match s with
  | EmptyString => EmptyString
  | String c s' => String (lower c) (lower_all s')
  end.

Definition capitalize (s : string) : string :=
  match s with
  | EmptyString => EmptyString
  | String c s' => String (upper c) (lower_all s')
  end.

(** ** Messages, provider outcomes, exceptions *)

Record Message : Type := mkMessage {
  msg_title : string;
  msg_body : string;
  msg_token : string;
  msg_data : option (list (string * string));
  msg_android_priority : option string;
  msg_apns_headers : option (list (string * string))
}.

(** What [messaging.send] does with one message: it returns a message id or
    raises.  [UnregisteredError] and [InvalidArgumentError] are subclasses
    of [FirebaseError]; [OtherException] is any other [Exception]. *)
Inductive SendResult : Type :=
| Sent (message_id : string)
| UnregisteredError
| InvalidArgumentError
| FirebaseError
| OtherException.

(** The exceptions of the program: the HTTP errors it raises itself, what
    a call of the Firestore client raises, and the two built-in exceptions
    that reach it from outside a handler. *)
Inductive Exn : Type :=
| HTTPException (status_code : nat) (detail : string)
| StoreException (msg : string)
| ValueError (msg : string)
| AttributeError (msg : string).

Inductive Result (A : Type) : Type :=
| Ok (a : A)
| Raise (e : Exn).
Arguments Ok {A} a.
Arguments Raise {A} e.

(** ** Environment and world *)

Record Env : Type := mkEnv {
  (** the module global [firebase_initialized] *)
  firebase_initialized : bool;
  (** whether the module global [db] holds a client (is truthy) *)
  db : bool;
  (** [messaging.send], given the messages already handed to it *)
  fcm_send : list Message -> Message -> SendResult;
  (** whether the n-th call of the Firestore client raises, and with what *)
  store_fault : nat -> option string;
  (** the value Firestore writes for [SERVER_TIMESTAMP] at the n-th call *)
  server_time : nat -> Z;
  (** [str(v)] for a value that is not a string *)
  py_str : PyVal -> string
}.

(** [collection.document(id)] builds the path [collection/id] and splits it
    at every slash; a document reference needs an even number of path
    elements, which is the case when [id] holds an even number of slashes.
    Otherwise building the reference raises [ValueError]. *)
Fixpoint slashes (s : string) : nat :=
  match s with
  | EmptyString => 0
  | String c s' => (if Ascii.eqb c "/" then 1 else 0) + slashes s'
  end.

Definition is_document_id (id : string) : bool := Nat.even (slashes id).

Record World : Type := mkWorld {
  (** collection [users] *)
  users : gmap string (gmap string PyVal);
  (** what is kept for the collection [appointments] *)
  appointment_docs : gmap string (gmap string PyVal);
  (** messages handed to [messaging.send], oldest first *)
  fcm_log : list Message;
  (** calls of [remove_unregistered_token] (user id, token), oldest first *)
  prune_log : list (string * string);
  (** number of calls made to the Firestore client *)
  store_ops : nat
}.

(** The collection [appointments]: Firestore holds a document only under
    an id that is a document path. *)
Definition appointments (w : World) : gmap string (gmap string PyVal) :=
  filter (fun kv => is_document_id kv.1 = true) (appointment_docs w).

Definition set_users (u : gmap string (gmap string PyVal)) (w : World) : World :=
  mkWorld u (appointment_docs w) (fcm_log w) (prune_log w) (store_ops w).
Definition set_appointments (a : gmap string (gmap string PyVal)) (w : World) : World :=
  mkWorld (users w) a (fcm_log w) (prune_log w) (store_ops w).
Definition log_send (m : Message) (w : World) : World :=
  mkWorld (users w) (appointment_docs w) (fcm_log w ++ [m]) (prune_log w) (store_ops w).
Definition log_prune (u t : string) (w : World) : World :=
  mkWorld (users w) (appointment_docs w) (fcm_log w) (prune_log w ++ [(u, t)]) (store_ops w).
Definition tick (w : World) : World :=
  mkWorld (users w) (appointment_docs w) (fcm_log w) (prune_log w) (S (store_ops w)).

(** ** The state-and-exception monad *)

Definition M (A : Type) : Type := World -> Result A * World.

Definition ret {A} (a : A) : M A := fun w => (Ok a, w).
Definition raise {A} (e : Exn) : M A := fun w => (Raise e, w).
Definition bind {A B} (m : M A) (k : A -> M B) : M B :=
  fun w => match m w with
           | (Ok a, w') => k a w'
           | (Raise e, w') => (Raise e, w')
           end.
(** [try: m except Exception as e: h e] *)
Definition try_except {A} (m : M A) (h : Exn -> M A) : M A :=
  fun w => match m w with
           | (Ok a, w') => (Ok a, w')
           | (Raise e, w') => h e w'
           end.

Definition gets {A} (f : World -> A) : M A := fun w => (Ok (f w), w).
Definition modify (f : World -> World) : M unit := fun w => (Ok tt, f w).

(** A computation that cannot raise, run inside the monad. *)
Definition total {A} (f : World -> A * World) : M A :=
  fun w => let (a, w') := f w in (Ok a, w').

#[global] Instance M_ret : MRet M := @ret.
#[global] Instance M_bind : MBind M := fun A B k m => bind m k.

Section Program.

Context (E : Env).

(** *** Firestore client calls *)

(** Every call of the client counts as one operation and may raise. *)
Definition store_call : M unit :=
  fun w => match store_fault E (store_ops w) with
           | Some msg => (Raise (StoreException msg), tick w)
           | None => (Ok tt, tick w)
           end.

(** [db.collection('users').document(id).get()]: [None] models a snapshot
    whose [exists] is false. *)
Definition users_get (id : string) : M (option (gmap string PyVal)) :=
  store_call ;; gets (fun w => users w !! id).

Definition appointments_get (id : string) : M (option (gmap string PyVal)) :=
  store_call ;; gets (fun w => appointments w !! id).

(** [user_ref.update({field: v})]; Firestore refuses to update a document
    that does not exist. *)
Definition users_update (id field : string) (v : PyVal) : M unit :=
  store_call ;;
  doc ← gets (fun w => users w !! id);
  match doc with
  | Some d => modify (fun w => set_users (<[id := <[field := v]> d]> (users w)) w)
  | None => raise (StoreException "NotFound")
  end.

(** [user_ref.update({field: firestore.DELETE_FIELD})] *)
Definition users_delete_field (id field : string) : M unit :=
  store_call ;;
  doc ← gets (fun w => users w !! id);
  match doc with
  | Some d => modify (fun w => set_users (<[id := delete field d]> (users w)) w)
  | None => raise (StoreException "NotFound")
  end.

(** [dict.update]: the entries of [upd], in order, overwrite those of [d]. *)
Definition dict_update (d : gmap string PyVal) (upd : list (string * PyVal))
  : gmap string PyVal :=
  foldl (fun d kv => <[kv.1 := kv.2]> d) d upd.

(** [appointment_ref.update(update_data)]: the fields of [update_data]
    overwrite those of the document.  [update_data] takes the value the
    server substitutes for [SERVER_TIMESTAMP] in this call. *)
Definition appointments_update (id : string)
    (update_data : PyVal -> list (string * PyVal)) : M unit :=
  n ← gets store_ops;
  store_call ;;
  doc ← gets (fun w => appointments w !! id);
  match doc with
  | Some d =>
      modify (fun w => set_appointments
                (<[id := dict_update d (update_data (PTimestamp (server_time E n)))]>
                   (appointments w)) w)
  | None => raise (StoreException "NotFound")
  end.

(** *** [get_user_fcm_tokens] *)

(** [[token for token in tokens if token and isinstance(token, str)]] *)
Fixpoint valid_tokens (tokens : list PyVal) : list string :=
  match tokens with
  | [] => []
  | PStr s :: rest => if str_truthy s then s :: valid_tokens rest
                      else valid_tokens rest
  | _ :: rest => valid_tokens rest
  end.

(** The function catches every exception and returns a list on every path,
    so its result type has no exception. *)
Definition get_user_fcm_tokens (user_id user_type : string)
  : World -> list string * World :=
  fun w =>
    if negb (db E) then ([], w)
    else
      match users_get user_id w with
      | (Ok (Some user_data), w1) =>
          match dict_get user_data "fcmTokens" with
          | PList tokens =>
              let valid := valid_tokens tokens in
              match valid with
              | [] => ([], w1)
              | _ :: _ => (valid, w1)
              end
          | PStr tokens => if str_truthy tokens then ([tokens], w1) else ([], w1)
          | _ => ([], w1)
          end
      | (Ok None, w1) => ([], w1)
      | (Raise _, w1) => ([], w1)
      end.

Definition get_doctor_fcm_tokens (doctor_id : string) :=
  get_user_fcm_tokens doctor_id "doctor".

Definition get_patient_fcm_tokens (patient_id : string) :=
  get_user_fcm_tokens patient_id "patient".

(** *** [remove_unregistered_token] *)

(** The body of the [try] block. *)
Definition remove_unregistered_token_body (user_id invalid_token : string)
  : M bool :=
  user_doc ← users_get user_id;
  match user_doc with
  | None => mret false
  | Some user_data =>
      match dict_get user_data "fcmTokens" with
      | PList tokens =>
          if py_in invalid_token tokens then
            users_update user_id "fcmTokens"
                         (PList (py_remove invalid_token tokens)) ;;
            mret true
          else mret false
      | PStr tokens =>
          if tokens =? invalid_token then
            users_delete_field user_id "fcmTokens" ;; mret true
          else mret false
      | _ => mret false
      end
  end.

(** Every call is recorded in [prune_log].  As above, no exception
    escapes. *)
Definition remove_unregistered_token (user_id invalid_token : string)
  : World -> bool * World :=
  fun w =>
    let w0 := log_prune user_id invalid_token w in
    if negb (db E) then (false, w0)
    else
      match remove_unregistered_token_body user_id invalid_token w0 with
      | (Ok b, w1) => (b, w1)
      | (Raise _, w1) => (false, w1)
      end.

(** *** [send_notifications_to_user] *)

(** The two shapes of the dictionary the function returns: the early
    return for a user without tokens, and the summary of a fan-out. *)
Inductive NotificationResult : Type :=
| NoTarget (message : string)
| Summary (status : string)
          (success_count failure_count tokens_targeted tokens_removed : nat).

Definition result_status (r : NotificationResult) : string :=
  match r with
  | NoTarget _ => "no_target"
  | Summary st _ _ _ _ => st
  end.

(** The counters of the loop: [success_count], [failure_count],
    [tokens_removed]. *)
Record Counters : Type := mkCounters {
  c_success : nat;
  c_failure : nat;
  c_removed : nat
}.

(** One iteration of [for token in tokens]: build the message, hand it to
    [messaging.send], and branch on what it raises. *)
Definition send_one (user_id : string) (mk : string -> Message)
    (token : string) (c : Counters) : World -> Counters * World :=
  fun w =>
    let message := mk token in
    let w1 := log_send message w in
    match fcm_send E (fcm_log w) message with
    | Sent _ =>
        (mkCounters (c_success c + 1) (c_failure c) (c_removed c), w1)
    | UnregisteredError =>
        let failure_count := c_failure c + 1 in
        match remove_unregistered_token user_id token w1 with
        | (true, w2) =>
            (mkCounters (c_success c) failure_count (c_removed c + 1), w2)
        | (false, w2) =>
            (mkCounters (c_success c) failure_count (c_removed c), w2)
        end
    | InvalidArgumentError | FirebaseError =>
        (mkCounters (c_success c) (c_failure c + 1) (c_removed c), w1)
    | OtherException =>
        (mkCounters (c_success c) (c_failure c + 1) (c_removed c), w1)
    end.

Fixpoint send_loop (user_id : string) (mk : string -> Message)
    (tokens : list string) (c : Counters) (w : World) : Counters * World :=
  match tokens with
  | [] => (c, w)
  | token :: rest =>
      let (c', w') := send_one user_id mk token c w in
      send_loop user_id mk rest c' w'
  end.

(** "Determine overall status" *)
Definition final_status (success_count failure_count : nat) : string :=
  if (success_count =? 0)%nat && (0 <? failure_count)%nat then "failure"
  else if (0 <? failure_count)%nat then "partial_success"
  else "success".

(** The tokens of the user, by [user_type]. *)
Definition tokens_for (user_id user_type : string)
  : World -> list string * World :=
  if user_type =? "doctor" then get_doctor_fcm_tokens user_id
  else if user_type =? "patient" then get_patient_fcm_tokens user_id
  else get_user_fcm_tokens user_id user_type.

(** The message built for one token. *)
Definition make_message (title body : string)
    (data : option (list (string * string))) (high_priority : bool)
    (token : string) : Message :=
  mkMessage title body token data
    (if high_priority then Some "high" else None)
    (if high_priority then Some [("apns-priority", "10")] else None).

Definition send_notifications_to_user (user_id user_type title body : string)
    (data : option (list (string * string))) (high_priority : bool)
  : M NotificationResult :=
  if negb (firebase_initialized E) then
    raise (HTTPException 503 "Firebase services not initialized")
  else
    tokens ← total (tokens_for user_id user_type);
    match tokens with
    | [] =>
        mret (NoTarget ("No FCM tokens available for " +:+ user_type
                          +:+ " " +:+ user_id))
    | _ :: _ =>
        c ← total (send_loop user_id
                     (make_message title body data high_priority)
                     tokens (mkCounters 0 0 0));
        mret (Summary (final_status (c_success c) (c_failure c))
                      (c_success c) (c_failure c)
                      (length tokens) (c_removed c))
    end.

(** *** [update_appointment_status] *)

Inductive AppointmentStatus : Type :=
| PENDING | CONFIRMED | SCHEDULED | COMPLETED
| DECLINED_DOCTOR | CANCELLED_PATIENT | DECLINED.

Definition status_value (s : AppointmentStatus) : string :=
  match s with
  | PENDING => "pending"
  | CONFIRMED => "confirmed"
  | SCHEDULED => "scheduled"
  | COMPLETED => "completed"
  | DECLINED_DOCTOR => "declined_doctor"
  | CANCELLED_PATIENT => "cancelled_patient"
  | DECLINED => "declined"
  end.

Definition status_name (s : AppointmentStatus) : string :=
  match s with
  | PENDING => "PENDING"
  | CONFIRMED => "CONFIRMED"
  | SCHEDULED => "SCHEDULED"
  | COMPLETED => "COMPLETED"
  | DECLINED_DOCTOR => "DECLINED_DOCTOR"
  | CANCELLED_PATIENT => "CANCELLED_PATIENT"
  | DECLINED => "DECLINED"
  end.

Definition is_declined_doctor (s : AppointmentStatus) : bool :=
  match s with DECLINED_DOCTOR => true | _ => false end.

Record UpdateAppointmentStatusPayload : Type := mkPayload {
  appointment_id : string;
  new_status : AppointmentStatus;
  doctor_id : option string;
  cancellation_reason : option string
}.

(** The dictionary returned on success. *)
Record WorkflowResult : Type := mkWorkflowResult {
  wr_status : string;
  wr_message : string;
  wr_notification_result : NotificationResult
}.

(** [payload.doctor_id and payload.doctor_id != doctor_id_original] *)
Definition doctor_mismatch (payload_doctor : option string)
    (doctor_id_original : PyVal) : bool :=
  match payload_doctor with
  | Some d => str_truthy d && negb (str_eq d doctor_id_original)
  | None => false
  end.

(** The dictionary [update_data], given the server's timestamp. *)
Definition update_data (payload : UpdateAppointmentStatusPayload)
    (timestamp : PyVal) : list (string * PyVal) :=
  [("status", PStr (status_value (new_status payload)));
   ("statusLastUpdatedAt", timestamp)]
  ++ match cancellation_reason payload with
     | Some r => if str_truthy r then [("cancellationReason", PStr r)] else []
     | None => []
     end.

(** A value inside an f-string *)
Definition fmt (v : PyVal) : string :=
  match v with PStr s => s | _ => py_str E v end.

Definition notif_title (payload : UpdateAppointmentStatusPayload) : string :=
  "Appointment " +:+ capitalize (status_name (new_status payload)).

Definition notif_body (payload : UpdateAppointmentStatusPayload)
    (appointment_data : gmap string PyVal) : string :=
  let doctor_name :=
    match appointment_data !! "doctorName" with
    | Some v => v
    | None => PStr "your doctor"
    end in
  let body := "Your appointment with Dr. " +:+ fmt doctor_name
              +:+ " has been " +:+ status_value (new_status payload) +:+ "." in
  match cancellation_reason payload with
  | Some r =>
      if is_declined_doctor (new_status payload) && str_truthy r
      then body +:+ " Reason: " +:+ r
      else body
  | None => body
  end.

Definition data_payload_patient (payload : UpdateAppointmentStatusPayload)
  : list (string * string) :=
  [("type", "appointment_update");
   ("appointmentId", appointment_id payload);
   ("newStatus", status_value (new_status payload));
   ("route", "/appointments/detail/" +:+ appointment_id payload)].

(** Step 3.  [patient_id] is whatever the document holds.  For a string it
    is the call of [send_notifications_to_user].  For a truthy value that
    is not a string, [document(user_id)] raises inside the [try] of
    [get_user_fcm_tokens] before any request is made, the token list is
    empty and the early return is taken. *)
Definition notify_patient (patient_id : PyVal) (title body : string)
    (data : list (string * string)) : M NotificationResult :=
  match patient_id with
  | PStr user_id =>
      send_notifications_to_user user_id "patient" title body (Some data) true
  | _ =>
      mret (NoTarget ("No FCM tokens available for patient "
                        +:+ py_str E patient_id))
  end.

(** The body of the [try] block. *)
Definition update_appointment_status_body
    (payload : UpdateAppointmentStatusPayload) : M WorkflowResult :=
  appointment_snapshot ← appointments_get (appointment_id payload);
  match appointment_snapshot with
  | None => raise (HTTPException 404 "Appointment not found.")
  | Some appointment_data =>
      let patient_id := dict_get appointment_data "patientId" in
      let doctor_id_original := dict_get appointment_data "doctorId" in
      if negb (truthy patient_id) then
        raise (HTTPException 500 "Appointment data incomplete.")
      else if doctor_mismatch (doctor_id payload) doctor_id_original then
        raise (HTTPException 403 "Not authorized to update this appointment.")
      else
        appointments_update (appointment_id payload) (update_data payload) ;;
        notification_result ←
          notify_patient patient_id (notif_title payload)
                         (notif_body payload appointment_data)
                         (data_payload_patient payload);
        mret (mkWorkflowResult
                "success"
                ("Appointment status updated to "
                   +:+ status_value (new_status payload))
                notification_result)
  end.

(** [except HTTPException: raise] and [except Exception as e: ...] *)
Definition update_appointment_status_handler (e : Exn) : M WorkflowResult :=
  match e with
  | HTTPException _ _ => raise e
  | StoreException msg | ValueError msg | AttributeError msg =>
      raise (HTTPException 500 ("Failed to update appointment status: " +:+ msg))
  end.

(** [appointment_ref] is built before the [try]: what building it raises
    reaches the caller as it is. *)
Definition update_appointment_status
    (payload : UpdateAppointmentStatusPayload) : M WorkflowResult :=
  if negb (firebase_initialized E) || negb (db E) then
    raise (HTTPException 503 "Backend services not fully initialized.")
  else if negb (is_document_id (appointment_id payload)) then
    raise (ValueError "A document must have an even number of path elements")
  else
    try_except (update_appointment_status_body payload)
               update_appointment_status_handler.

End Program.

(** ** Notions used to state the properties *)

Section Observations.

Context (E : Env).

(** The outcome of every send of a fan-out over [tokens], in order, for a
    provider that has already received the messages of [log]. *)
Fixpoint outcomes (mk : string -> Message) (log : list Message)
    (tokens : list string) : list SendResult :=
  match tokens with
  | [] => []
  | token :: rest =>
      fcm_send E log (mk token) :: outcomes mk (log ++ [mk token]) rest
  end.

(** The tokens of a fan-out that the provider reports as unregistered. *)
Fixpoint invalid_targets (mk : string -> Message) (log : list Message)
    (tokens : list string) : list string :=
  match tokens with
  | [] => []
  | token :: rest =>
      let others := invalid_targets mk (log ++ [mk token]) rest in
      match fcm_send E log (mk token) with
      | UnregisteredError => token :: others
      | _ => others
      end
  end.

End Observations.

Definition is_delivered (r : SendResult) : bool :=
  match r with Sent _ => true | _ => false end.

Definition is_failed (r : SendResult) : bool := negb (is_delivered r).

Fixpoint count {A} (p : A -> bool) (l : list A) : nat :=
  match l with
  | [] => 0
  | x :: l' => (if p x then 1 else 0) + count p l'
  end.

(** The derivation of the overall status as the specification words it,
    from the two counts; no outcome at all is the case of zero targets. *)
Definition derive_status (delivered failed : nat) : string :=
  if (delivered =? 0)%nat && (failed =? 0)%nat then "no_target"
  else if (failed =? 0)%nat && (0 <? delivered)%nat then "success"
  else if (delivered =? 0)%nat && (0 <? failed)%nat then "failure"
  else "partial_success".

(** Whether the stored [fcmTokens] of [user_id] holds [token]. *)
Definition holds_token (w : World) (user_id token : string) : bool :=
  match users w !! user_id with
  | Some d =>
      match dict_get d "fcmTokens" with
      | PList l => py_in token l
      | PStr s => (s =? token)
      | _ => false
      end
  | None => false
  end.

(** The stored [fcmTokens] of [user_id], when it is a list. *)
Definition stored_list (w : World) (user_id : string) : option (list PyVal) :=
  match users w !! user_id with
  | Some d =>
      match d !! "fcmTokens" with
      | Some (PList l) => Some l
      | _ => None
      end
  | None => None
  end.

(** A token list without duplicate and without empty-string entries. *)
Definition clean (l : list PyVal) : Prop := NoDup l /\ PStr "" ∉ l.

(** Between [w] and [w'], every stored token list comes from a stored list
    of the same user and is clean if that one was. *)
Definition keeps_clean (w w' : World) : Prop :=
  forall user_id l',
    stored_list w' user_id = Some l' ->
    exists l, stored_list w user_id = Some l /\ (clean l -> clean l').

(** [t] is a valid target of the document [d]: a non-empty string that is
    the [fcmTokens] field itself or an entry of the list it holds. *)
Definition is_target (d : gmap string PyVal) (t : string) : Prop :=
  t <> "" /\
  (d !! "fcmTokens" = Some (PStr t) \/
   exists l, d !! "fcmTokens" = Some (PList l) /\ PStr t ∈ l).

(** [resolveTargets] as the specification words it: an error for a
    recipient without record, the valid targets of the record otherwise
    (those the source function returns for it). *)
Inductive ResolveError : Type := RecipientNotFound.

Definition resolveTargets_spec (E : Env) (w : World) (recipientId : string)
  : ResolveError + list string :=
  match users w !! recipientId with
  | None => inl RecipientNotFound
  | Some _ => inr (get_user_fcm_tokens E recipientId "user" w).1
  end.

(** ** A small deployment, for the examples *)

(** A provider that delivers to [t1], reports [t2] as unregistered, and
    fails in a different way on every other token. *)
Definition demo_send (log : list Message) (m : Message) : SendResult :=
  if msg_token m =? "t1" then Sent "projects/mama/messages/1"
  else if msg_token m =? "t2" then UnregisteredError
  else if msg_token m =? "t3" then InvalidArgumentError
  else if msg_token m =? "t4" then FirebaseError
  else OtherException.

(** Initialised services and a store that answers every call. *)
Definition E_up : Env :=
  mkEnv true true demo_send (fun _ => None) Z.of_nat (fun _ => "<value>").

(** Initialised services, but the store answers its first call only and
    raises on every later one. *)
Definition E_store_lost : Env :=
  mkEnv true true demo_send
        (fun n => match n with 0 => None | S _ => Some "unavailable" end)
        Z.of_nat (fun _ => "<value>").

Definition demo_users : gmap string (gmap string PyVal) :=
  {[ "R" := {[ "fcmTokens" := PList [PStr "t1"; PStr ""; PInt 3; PStr "t2"] ]};
     "F" := {[ "fcmTokens" := PList [PStr "t2"; PStr "t3"; PStr "t4"] ]};
     "S" := {[ "fcmTokens" := PStr "only" ]};
     "N" := {[ "name" := PStr "no device" ]};
     "Dup" := {[ "fcmTokens" := PList [PStr "a"; PStr "a"; PStr ""; PStr "b"] ]} ]}.

Definition demo_appointments : gmap string (gmap string PyVal) :=
  {[ "A" := {[ "patientId" := PStr "F"; "doctorId" := PStr "D";
               "status" := PStr "pending" ]};
     "B" := {[ "doctorId" := PStr "D"; "status" := PStr "pending" ]} ]}.

Definition w_demo : World := mkWorld demo_users demo_appointments [] [] 0.

(** A store whose only token list is clean. *)
Definition w_clean : World :=
  mkWorld {[ "C" := {[ "fcmTokens" := PList [PStr "x"; PStr "y"; PStr "z"] ]} ]}
          ∅ [] [] 0.

(** ** The other endpoints *)

Section Endpoints.

Context (E : Env).

(** [str(firebase_init_error)], the text kept from a failed start-up. *)
Context (firebase_init_error : string).

(** [str(e)] for the exception [messaging.send] raised. *)
Context (exn_text : SendResult -> string).

(** *** [read_root] *)

Record HealthStatus : Type := mkHealthStatus {
  hs_status : string;
  hs_firebase_admin_status : string;
  hs_firestore_status : string
}.

Definition read_root : HealthStatus :=
  let init_status :=
    if firebase_initialized E then "Initialized"
    else "Initialization FAILED: " +:+ firebase_init_error in
  let db_status := if db E then "Connected" else "Not Connected" in
  mkHealthStatus "Server running" init_status db_status.

(** *** [send_fcm_notification_direct] *)

Record TargettedNotificationPayload : Type := mkTargetted {
  tp_token : string;
  tp_title : string;
  tp_body : string;
  tp_data : option (list (string * string))
}.

(** The dictionary returned on success. *)
Record DirectResult : Type := mkDirectResult {
  dr_status : string;
  dr_message_id : string
}.

(** [payload.data if payload.data else None]: an empty dictionary is
    falsy. *)
Definition data_or_none (data : option (list (string * string)))
  : option (list (string * string)) :=
  match data with
  | Some (kv :: rest) => Some (kv :: rest)
  | Some [] => None
  | None => None
  end.

(** The second [except] clause of the endpoint names
    [messaging.InvalidArgumentError].  The module [messaging] has no such
    attribute ([InvalidArgumentError] lives in [firebase_admin.exceptions]),
    so once an exception gets past the first clause, evaluating the second
    one raises [AttributeError], and the clauses written after it are never
    tried. *)
Definition no_invalid_argument_error : string :=
  "module 'firebase_admin.messaging' has no attribute 'InvalidArgumentError'".

Definition direct_message (payload : TargettedNotificationPayload) : Message :=
  mkMessage (tp_title payload) (tp_body payload) (tp_token payload)
            (data_or_none (tp_data payload)) None None.

Definition send_fcm_notification_direct
    (payload : TargettedNotificationPayload) : M DirectResult :=
  if negb (firebase_initialized E) then
    raise (HTTPException 503 ("Firebase Admin SDK not initialized: "
                                +:+ firebase_init_error))
  else
    let message := direct_message payload in
    log ← gets fcm_log;
    modify (log_send message) ;;
    match fcm_send E log message with
    | Sent response => mret (mkDirectResult "success" response)
    | UnregisteredError as e =>
        raise (HTTPException 404 ("Device token is unregistered or invalid: "
                                    +:+ exn_text e))
    | InvalidArgumentError | FirebaseError | OtherException =>
        raise (AttributeError no_invalid_argument_error)
    end.

(** *** [notify_doctor_appointment] *)

Record DoctorAppointmentNotificationPayload : Type := mkDoctorPayload {
  dp_doctor_id : string;
  dp_title : string;
  dp_body : string;
  dp_data : option (list (string * string))
}.

Definition notify_doctor_appointment
    (payload : DoctorAppointmentNotificationPayload) : M NotificationResult :=
  send_notifications_to_user E (dp_doctor_id payload) "doctor"
                             (dp_title payload) (dp_body payload)
                             (dp_data payload) false.

End Endpoints.

(** ** Further notions used to state properties *)

(** How often [token] is stored for [user_id]. *)
Definition stored_count (w : World) (user_id token : string) : nat :=
  match users w !! user_id with
  | Some d =>
      match dict_get d "fcmTokens" with
      | PList l => count (str_eq token) l
      | PStr s => if s =? token then 1 else 0
      | _ => 0
      end
  | None => 0
  end.

(** A list of strings without the first occurrence of [t]. *)
Fixpoint remove_first (t : string) (l : list string) : list string :=
  match l with
  | [] => []
  | s :: l' => if t =? s then l' else s :: remove_first t l'
  end.

(** The store answers every call from the [n]-th on. *)
Definition store_answers_from (E : Env) (n : nat) : Prop :=
  forall k, n <= k -> store_fault E k = None.

(** The message has the platform hints of a high-priority message. *)
Definition has_priority_hints (m : Message) : Prop :=
  msg_android_priority m = Some "high" /\
  msg_apns_headers m = Some [("apns-priority", "10")].

Definition has_no_priority_hints (m : Message) : Prop :=
  msg_android_priority m = None /\ msg_apns_headers m = None.

(** Services that never came up. *)
Definition E_down : Env :=
  mkEnv false false demo_send (fun _ => None) Z.of_nat (fun _ => "<value>").

(** Initialised services, but every call of the store raises. *)
Definition E_store_down : Env :=
  mkEnv true true demo_send (fun _ => Some "unavailable") Z.of_nat
        (fun _ => "<value>").

(** Between [w] and [w'], nothing changed but the [fcmTokens] field of the
    document of [user_id], and no document was created for that user. *)
Definition only_tokens_changed (user_id : string) (w w' : World) : Prop :=
  (forall uid, uid <> user_id -> users w' !! uid = users w !! uid) /\
  (forall field, field <> "fcmTokens" ->
     (users w' !! user_id) ≫= (.!! field)
     = (users w !! user_id) ≫= (.!! field)) /\
  (users w !! user_id = None -> users w' !! user_id = None) /\
  appointments w' = appointments w.

(** What every message of one fan-out carries. *)
Definition carries (title body : string)
    (data : option (list (string * string))) (high_priority : bool)
    (m : Message) : Prop :=
  msg_title m = title /\ msg_body m = body /\ msg_data m = data /\
  if high_priority then has_priority_hints m else has_no_priority_hints m.

(** The HTTP status code an endpoint answers with when it raises. *)
Definition raised_code {A} (r : Result A) : option nat :=
  match r with
  | Raise (HTTPException code _) => Some code
  | _ => None
  end.

Definition is_ok {A} (r : Result A) : bool :=
  match r with Ok _ => true | Raise _ => false end.

(** The fields [update_appointment_status] may write. *)
Definition written_field (field : string) : bool :=
  (field =? "status") || (field =? "statusLastUpdatedAt")
  || (field =? "cancellationReason").

(** A store with one user who registered one device, as a single string. *)
Definition w_single : World :=
  mkWorld {[ "U" := {[ "fcmTokens" := PStr "t1" ]} ]} ∅ [] [] 0.

(** The world right after the write of [update_appointment_status] on the
    document [d], the read and the write being the two store calls made
    from [w]. *)
Definition written_world (E : Env) (payload : UpdateAppointmentStatusPayload)
    (d : gmap string PyVal) (w : World) : World :=
  set_appointments
    (<[appointment_id payload :=
         dict_update d (update_data payload
                          (PTimestamp (server_time E (S (store_ops w)))))]>
       (appointments w))
    (tick (tick w)).

(** [payload.cancellation_reason] is truthy. *)
Definition reason_given (payload : UpdateAppointmentStatusPayload) : bool :=
  match cancellation_reason payload with
  | Some r => str_truthy r
  | None => false
  end.

(** The same request with another reason. *)
Definition with_reason (payload : UpdateAppointmentStatusPayload)
    (reason : option string) : UpdateAppointmentStatusPayload :=
  mkPayload (appointment_id payload) (new_status payload) (doctor_id payload)
            reason.

(** The world with the stored status of one appointment replaced. *)
Definition with_stored_status (w : World) (id : string)
    (d : gmap string PyVal) (v : PyVal) : World :=
  set_appointments (<[id := <["status" := v]> d]> (appointments w)) w.

(** What every message of the appointment workflow carries. *)
Definition workflow_message (payload : UpdateAppointmentStatusPayload)
    (m : Message) : Prop :=
  msg_title m = notif_title payload /\
  msg_data m = Some (data_payload_patient payload) /\
  has_priority_hints m.

(** * Properties *)

(** Unfolds the monad down to functions on worlds. *)
Ltac unfold_monad :=
  unfold mbind, M_bind, bind, mret, M_ret, ret, gets, modify, raise, total,
         try_except in *.

Section Frames.

Context (E : Env).

(** ** What the token store helpers leave alone *)

Lemma store_call_frame w r w' :
  store_call E w = (r, w') ->
  w' = tick w /\
  (r = Ok tt <-> store_fault E (store_ops w) = None).
Proof.
  unfold store_call. destruct (store_fault E (store_ops w)); intros H;
    inversion H; subst; split; auto; split; intros; congruence.
Qed.

Lemma users_get_run id w :
  users_get E id w =
  match store_fault E (store_ops w) with
  | Some msg => (Raise (StoreException msg), tick w)
  | None => (Ok (users w !! id), tick w)
  end.
Proof.
  unfold users_get, store_call. unfold_monad.
  destruct (store_fault E (store_ops w)); reflexivity.
Qed.

Lemma appointments_get_run id w :
  appointments_get E id w =
  match store_fault E (store_ops w) with
  | Some msg => (Raise (StoreException msg), tick w)
  | None => (Ok (appointments w !! id), tick w)
  end.
Proof.
  unfold appointments_get, store_call. unfold_monad.
  destruct (store_fault E (store_ops w)); reflexivity.
Qed.

Lemma get_user_fcm_tokens_frame user_id user_type w tokens w' :
  get_user_fcm_tokens E user_id user_type w = (tokens, w') ->
  users w' = users w /\ appointments w' = appointments w /\
  fcm_log w' = fcm_log w /\ prune_log w' = prune_log w.
Proof.
  unfold get_user_fcm_tokens, users_get, store_call. unfold_monad.
  intros H. repeat case_match; simplify_eq; simpl; auto.
Qed.

Lemma tokens_for_frame user_id user_type w tokens w' :
  tokens_for E user_id user_type w = (tokens, w') ->
  users w' = users w /\ appointments w' = appointments w /\
  fcm_log w' = fcm_log w /\ prune_log w' = prune_log w.
Proof.
  unfold tokens_for, get_doctor_fcm_tokens, get_patient_fcm_tokens.
  repeat case_match; apply get_user_fcm_tokens_frame.
Qed.

Lemma remove_unregistered_token_frame user_id token w b w' :
  remove_unregistered_token E user_id token w = (b, w') ->
  appointments w' = appointments w /\ fcm_log w' = fcm_log w /\
  prune_log w' = (prune_log w ++ [(user_id, token)])%list.
Proof.
  unfold remove_unregistered_token, remove_unregistered_token_body,
    users_get, users_update, users_delete_field, store_call.
  unfold_monad. intros H.
  repeat case_match; simplify_eq; simpl; auto.
Qed.

(** [remove_unregistered_token] case by case. *)
Lemma remove_unregistered_token_run user_id token w :
  remove_unregistered_token E user_id token w =
  let w0 := log_prune user_id token w in
  if negb (db E) then (false, w0)
  else
    match store_fault E (store_ops w) with
    | Some _ => (false, tick w0)
    | None =>
        match users w !! user_id with
        | None => (false, tick w0)
        | Some d =>
            match dict_get d "fcmTokens" with
            | PList l =>
                if py_in token l then
                  match store_fault E (S (store_ops w)) with
                  | Some _ => (false, tick (tick w0))
                  | None =>
                      (true,
                       set_users
                         (<[user_id := <["fcmTokens" := PList (py_remove token l)]> d]>
                            (users w))
                         (tick (tick w0)))
                  end
                else (false, tick w0)
            | PStr s =>
                if s =? token then
                  match store_fault E (S (store_ops w)) with
                  | Some _ => (false, tick (tick w0))
                  | None =>
                      (true,
                       set_users (<[user_id := delete "fcmTokens" d]> (users w))
                                 (tick (tick w0)))
                  end
                else (false, tick w0)
            | _ => (false, tick w0)
            end
        end
    end.
Proof.
  unfold remove_unregistered_token, remove_unregistered_token_body,
    users_update, users_delete_field.
  unfold_monad. rewrite users_get_run. unfold store_call. simpl.
  destruct (db E); simpl; [|reflexivity].
  destruct (store_fault E (store_ops w)); simpl; [reflexivity|].
  destruct (users w !! user_id) as [d|] eqn:Hd; simpl; [|reflexivity].
  destruct (dict_get d "fcmTokens") as [| ? | ? | s | ? | l]; try reflexivity.
  - destruct (s =? token); simpl; [|reflexivity].
    destruct (store_fault E (S (store_ops w))); simpl; [reflexivity|].
    rewrite Hd. reflexivity.
  - destruct (py_in token l); simpl; [|reflexivity].
    destruct (store_fault E (S (store_ops w))); simpl; [reflexivity|].
    rewrite Hd. reflexivity.
Qed.

End Frames.

Section Fanout.

Context (E : Env).

Lemma count_split (rs : list SendResult) :
  count is_delivered rs + count is_failed rs = length rs.
Proof.
  induction rs as [|r rs IH]; simpl; [reflexivity|].
  unfold is_failed in *. destruct (is_delivered r); simpl; lia.
Qed.

Lemma outcomes_length mk log tokens :
  length (outcomes E mk log tokens) = length tokens.
Proof.
  revert log. induction tokens as [|t ts IH]; intros log; simpl; auto.
Qed.

(** One iteration: one message more for the provider, one count more, and
    a prune call exactly when the provider says the token is
    unregistered. *)
Lemma send_one_spec user_id mk token c w c' w' :
  send_one E user_id mk token c w = (c', w') ->
  let r := fcm_send E (fcm_log w) (mk token) in
  fcm_log w' = (fcm_log w ++ [mk token])%list /\
  appointments w' = appointments w /\
  c_success c' = c_success c + (if is_delivered r then 1 else 0) /\
  c_failure c' = c_failure c + (if is_failed r then 1 else 0) /\
  prune_log w' =
    (prune_log w ++ match r with
                    | UnregisteredError => [(user_id, token)]
                    | _ => []
                    end)%list.
Proof.
  intros H. cbv zeta. unfold send_one in H.
  destruct (fcm_send E (fcm_log w) (mk token)) eqn:Hr; simpl;
    try (inversion H; subst; simpl; rewrite ?app_nil_r; repeat split; lia).
  destruct (remove_unregistered_token E user_id token (log_send (mk token) w))
    as [b w2] eqn:Hrm.
  apply remove_unregistered_token_frame in Hrm. simpl in Hrm.
  destruct Hrm as (Ha & Hl & Hp).
  destruct b; inversion H; subst; simpl; repeat split; auto; lia.
Qed.

Lemma send_loop_spec user_id mk tokens : forall c w c' w',
  send_loop E user_id mk tokens c w = (c', w') ->
  let rs := outcomes E mk (fcm_log w) tokens in
  fcm_log w' = (fcm_log w ++ map mk tokens)%list /\
  appointments w' = appointments w /\
  c_success c' = c_success c + count is_delivered rs /\
  c_failure c' = c_failure c + count is_failed rs /\
  prune_log w' =
    (prune_log w
       ++ map (pair user_id) (invalid_targets E mk (fcm_log w) tokens))%list.
Proof.
  induction tokens as [|t ts IH]; intros c w c' w' H; cbv zeta; simpl in *.
  - inversion H; subst. rewrite !app_nil_r. repeat split; lia.
  - destruct (send_one E user_id mk t c w) as [c1 w1] eqn:H1.
    apply send_one_spec in H1. destruct H1 as (Hl & Ha & Hs & Hf & Hp).
    apply IH in H. destruct H as (Hl' & Ha' & Hs' & Hf' & Hp').
    rewrite Hl in *. rewrite Hl', Ha', Hs', Hf', Hp', Hp, Hs, Hf, Ha.
    rewrite <- !app_assoc. simpl.
    repeat split; try lia.
    destruct (fcm_send E (fcm_log w) (mk t)); simpl; reflexivity.
Qed.

(** The function as a whole, once the module is initialised: resolve the
    tokens, return early on none, otherwise run the loop and summarise. *)
Lemma send_notifications_to_user_run user_id user_type title body data hp w :
  firebase_initialized E = true ->
  send_notifications_to_user E user_id user_type title body data hp w =
  let (tokens, w1) := tokens_for E user_id user_type w in
  match tokens with
  | [] => (Ok (NoTarget ("No FCM tokens available for " +:+ user_type
                           +:+ " " +:+ user_id)), w1)
  | _ :: _ =>
      let (c, w2) := send_loop E user_id (make_message title body data hp)
                               tokens (mkCounters 0 0 0) w1 in
      (Ok (Summary (final_status (c_success c) (c_failure c))
                   (c_success c) (c_failure c) (length tokens) (c_removed c)),
       w2)
  end.
Proof.
  intros Hinit. unfold send_notifications_to_user. rewrite Hinit. simpl.
  unfold_monad.
  destruct (tokens_for E user_id user_type w) as [tokens w1].
  destruct tokens as [|t ts]; [reflexivity|].
  destruct (send_loop E user_id (make_message title body data hp) (t :: ts)
              (mkCounters 0 0 0) w1); reflexivity.
Qed.

Lemma final_status_derive (s f : nat) :
  0 < s + f -> final_status s f = derive_status s f.
Proof.
  intros H. unfold final_status, derive_status.
  destruct s, f; simpl; try reflexivity. lia.
Qed.

End Fanout.

(** ** The fan-out *)

(** C3.  The status of the returned dictionary is a function of the two
    counts alone: no target gives [no_target]; no failure and a delivery
    give [success]; no delivery and a failure give [failure]; deliveries and
    failures give [partial_success].  The counts are those of the outcomes
    of the sends. *)
Theorem status_is_function_of_counts
    (E : Env) user_id user_type title body data hp w :
  firebase_initialized E = true ->
  let tokens := (tokens_for E user_id user_type w).1 in
  let rs := outcomes E (make_message title body data hp) (fcm_log w) tokens in
  let delivered := count is_delivered rs in
  let failed := count is_failed rs in
  exists r w',
    send_notifications_to_user E user_id user_type title body data hp w
      = (Ok r, w') /\
    result_status r = derive_status delivered failed /\
    (tokens = [] -> result_status r = "no_target") /\
    (failed = 0 -> 0 < delivered -> result_status r = "success") /\
    (delivered = 0 -> 0 < failed -> result_status r = "failure") /\
    (0 < delivered -> 0 < failed -> result_status r = "partial_success") /\
    (forall st s f n rm, r = Summary st s f n rm ->
       s = delivered /\ f = failed).
Proof.
  intros Hinit. cbv zeta.
  rewrite send_notifications_to_user_run by assumption.
  destruct (tokens_for E user_id user_type w) as [tokens w1] eqn:Htok.
  apply tokens_for_frame in Htok. destruct Htok as (_ & _ & Hlog & _).
  simpl fst. destruct tokens as [|t ts].
  - eexists _, _. split; [reflexivity|]. simpl.
    repeat split; try reflexivity; try lia; discriminate.
  - destruct (send_loop E user_id (make_message title body data hp) (t :: ts)
                (mkCounters 0 0 0) w1) as [c w2] eqn:Hloop.
    apply send_loop_spec in Hloop. cbv zeta in Hloop.
    destruct Hloop as (_ & _ & Hs & Hf & _). rewrite Hlog in Hs, Hf.
    simpl c_success in Hs. simpl c_failure in Hf.
    set (rs := outcomes E (make_message title body data hp) (fcm_log w) (t :: ts)) in *.
    assert (Hlen : 0 < count is_delivered rs + count is_failed rs).
    { rewrite count_split. unfold rs. rewrite outcomes_length. simpl. lia. }
    clearbody rs. simpl in Hs, Hf. rewrite Hs, Hf.
    eexists _, _. split; [reflexivity|]. simpl result_status.
    rewrite final_status_derive by assumption.
    split; [reflexivity|]. split; [intros; discriminate|].
    unfold derive_status.
    destruct (count is_delivered rs) as [|d], (count is_failed rs) as [|f];
      simpl; repeat split; intros; try reflexivity; try lia;
      match goal with H : Summary _ _ _ _ _ = _ |- _ => inversion H; reflexivity end.
Qed.

Lemma status_is_function_of_counts_witness :
  exists r w',
    send_notifications_to_user E_up "R" "doctor" "New request" "Please review"
                               None false w_demo = (Ok r, w') /\
    result_status r = "partial_success".
Proof.
  destruct (status_is_function_of_counts E_up "R" "doctor" "New request"
              "Please review" None false w_demo eq_refl)
    as (r & w' & Hrun & _ & _ & _ & _ & Hmixed & _).
  exists r, w'. split; [exact Hrun|].
  apply Hmixed; vm_compute; lia.
Defined.

(** C4.  When the user has no token to resolve, the function returns the
    [no_target] dictionary at once and hands nothing to the provider. *)
Theorem no_target_without_send
    (E : Env) user_id user_type title body data hp w :
  firebase_initialized E = true ->
  (tokens_for E user_id user_type w).1 = [] ->
  exists message w',
    send_notifications_to_user E user_id user_type title body data hp w
      = (Ok (NoTarget message), w') /\
    result_status (NoTarget message) = "no_target" /\
    w' = (tokens_for E user_id user_type w).2 /\
    fcm_log w' = fcm_log w.
Proof.
  intros Hinit Hnone.
  rewrite send_notifications_to_user_run by assumption.
  destruct (tokens_for E user_id user_type w) as [tokens w1] eqn:Htok.
  simpl in Hnone. subst tokens.
  apply tokens_for_frame in Htok. destruct Htok as (_ & _ & Hlog & _).
  eexists _, _. split; [reflexivity|]. auto.
Qed.

Lemma no_target_without_send_witness :
  exists message w',
    send_notifications_to_user E_up "N" "patient" "Hello" "World" None true
                               w_demo = (Ok (NoTarget message), w') /\
    fcm_log w' = [].
Proof.
  destruct (no_target_without_send E_up "N" "patient" "Hello" "World" None
              true w_demo eq_refl eq_refl)
    as (message & w' & Hrun & _ & _ & Hlog).
  exists message, w'. split; [exact Hrun | exact Hlog].
Defined.

(** C6.  Every resolved token gets its send, in order, whatever the earlier
    sends did: the provider receives one message per token, and each
    outcome that is not a delivery only adds one to the failure count. *)
Theorem every_token_is_attempted
    (E : Env) user_id user_type title body data hp w :
  firebase_initialized E = true ->
  let tokens := (tokens_for E user_id user_type w).1 in
  let mk := make_message title body data hp in
  let rs := outcomes E mk (fcm_log w) tokens in
  exists r w',
    send_notifications_to_user E user_id user_type title body data hp w
      = (Ok r, w') /\
    fcm_log w' = (fcm_log w ++ map mk tokens)%list /\
    length rs = length tokens /\
    (tokens <> [] ->
     exists st rm,
       r = Summary st (count is_delivered rs) (count is_failed rs)
                   (length tokens) rm).
Proof.
  intros Hinit. cbv zeta.
  rewrite send_notifications_to_user_run by assumption.
  destruct (tokens_for E user_id user_type w) as [tokens w1] eqn:Htok.
  apply tokens_for_frame in Htok. destruct Htok as (_ & _ & Hlog & _).
  simpl fst. rewrite outcomes_length. destruct tokens as [|t ts].
  - eexists _, _. split; [reflexivity|]. rewrite Hlog, app_nil_r.
    repeat split. intros []; reflexivity.
  - destruct (send_loop E user_id (make_message title body data hp) (t :: ts)
                (mkCounters 0 0 0) w1) as [c w2] eqn:Hloop.
    apply send_loop_spec in Hloop. cbv zeta in Hloop.
    destruct Hloop as (Hl & _ & Hs & Hf & _). rewrite Hlog in Hl, Hs, Hf.
    simpl c_success in Hs. simpl c_failure in Hf.
    eexists _, _. split; [reflexivity|]. rewrite Hl, Hs, Hf.
    repeat split. intros _. eexists _, _. reflexivity.
Qed.

Lemma every_token_is_attempted_witness :
  exists w' st rm,
    send_notifications_to_user E_up "F" "patient" "Hello" "World" None false
                               w_demo = (Ok (Summary st 0 3 3 rm), w') /\
    map msg_token (fcm_log w') = ["t2"; "t3"; "t4"].
Proof.
  destruct (every_token_is_attempted E_up "F" "patient" "Hello" "World" None
              false w_demo eq_refl)
    as (r & w' & Hrun & Hlog & _ & Hsum).
  destruct Hsum as (st & rm & Hr); [vm_compute; discriminate|].
  exists w', st, rm. split.
  - rewrite Hrun, Hr. reflexivity.
  - rewrite Hlog. reflexivity.
Defined.

(** C9.  For a user with at least one token, the summary accounts for every
    token: [success_count + failure_count = tokens_targeted], which is the
    number of resolved tokens. *)
Theorem counts_add_up
    (E : Env) user_id user_type title body data hp w :
  firebase_initialized E = true ->
  let tokens := (tokens_for E user_id user_type w).1 in
  tokens <> [] ->
  exists st s f n rm w',
    send_notifications_to_user E user_id user_type title body data hp w
      = (Ok (Summary st s f n rm), w') /\
    n = length tokens /\
    s + f = n.
Proof.
  intros Hinit. cbv zeta. intros Hne.
  rewrite send_notifications_to_user_run by assumption.
  destruct (tokens_for E user_id user_type w) as [tokens w1] eqn:Htok.
  simpl in Hne. destruct tokens as [|t ts]; [congruence|].
  destruct (send_loop E user_id (make_message title body data hp) (t :: ts)
              (mkCounters 0 0 0) w1) as [c w2] eqn:Hloop.
  apply send_loop_spec in Hloop. cbv zeta in Hloop.
  destruct Hloop as (_ & _ & Hs & Hf & _).
  simpl c_success in Hs. simpl c_failure in Hf.
  eexists _, _, _, _, _, _. split; [reflexivity|]. split; [reflexivity|].
  rewrite Nat.add_0_l in Hs, Hf. rewrite Hs, Hf.
  rewrite count_split, outcomes_length. reflexivity.
Qed.

Lemma counts_add_up_witness :
  exists st s f n rm w',
    send_notifications_to_user E_up "R" "user" "Hello" "World" None false
                               w_demo = (Ok (Summary st s f n rm), w') /\
    n = 2 /\ s + f = n.
Proof.
  destruct (counts_add_up E_up "R" "user" "Hello" "World" None false w_demo
              eq_refl)
    as (st & s & f & n & rm & w' & Hrun & Hn & Hsum);
    [vm_compute; discriminate|].
  exists st, s, f, n, rm, w'. split; [exact Hrun|]. split; [|exact Hsum].
  rewrite Hn. reflexivity.
Defined.

(** C5.  In a fan-out, [remove_unregistered_token] is called exactly once
    for each token the provider reported as unregistered, with that token,
    and for no other; whatever the store does with these calls, the
    fan-out returns its dictionary and raises nothing.  Pruning a token the
    stored field does not hold returns [False] and changes no document. *)
Theorem prune_once_per_invalid_target
    (E : Env) user_id user_type title body data hp w :
  firebase_initialized E = true ->
  let tokens := (tokens_for E user_id user_type w).1 in
  let mk := make_message title body data hp in
  (exists r w',
     send_notifications_to_user E user_id user_type title body data hp w
       = (Ok r, w') /\
     prune_log w' =
       (prune_log w
          ++ map (pair user_id) (invalid_targets E mk (fcm_log w) tokens))%list)
  /\
  (forall w0 uid token,
     holds_token w0 uid token = false ->
     exists w0',
       remove_unregistered_token E uid token w0 = (false, w0') /\
       users w0' = users w0).
Proof.
  intros Hinit. cbv zeta. split.
  - rewrite send_notifications_to_user_run by assumption.
    destruct (tokens_for E user_id user_type w) as [tokens w1] eqn:Htok.
    apply tokens_for_frame in Htok. destruct Htok as (_ & _ & Hlog & Hpr).
    simpl fst. destruct tokens as [|t ts].
    + eexists _, _. split; [reflexivity|]. simpl. rewrite app_nil_r. exact Hpr.
    + destruct (send_loop E user_id (make_message title body data hp) (t :: ts)
                  (mkCounters 0 0 0) w1) as [c w2] eqn:Hloop.
      apply send_loop_spec in Hloop. cbv zeta in Hloop.
      destruct Hloop as (_ & _ & _ & _ & Hp). rewrite Hlog, Hpr in Hp.
      eexists _, _. split; [reflexivity|]. exact Hp.
  - intros w0 uid token Hholds.
    unfold holds_token in Hholds.
    unfold remove_unregistered_token, remove_unregistered_token_body,
      users_get, users_update, users_delete_field, store_call.
    unfold_monad. simpl.
    repeat case_match; simplify_eq; simpl in *; eexists; split;
      try reflexivity; congruence.
Qed.

Lemma prune_once_per_invalid_target_witness :
  (exists r w',
     send_notifications_to_user E_store_lost "F" "patient" "Hello" "World"
                                None false w_demo = (Ok r, w') /\
     prune_log w' = [("F", "t2")])
  /\
  (exists w0',
     remove_unregistered_token E_up "R" "gone" w_demo = (false, w0') /\
     users w0' = users w_demo).
Proof.
  split.
  - destruct (prune_once_per_invalid_target E_store_lost "F" "patient" "Hello"
                "World" None false w_demo eq_refl) as [(r & w' & Hrun & Hp) _].
    exists r, w'. split; [exact Hrun | rewrite Hp; reflexivity].
  - destruct (prune_once_per_invalid_target E_up "F" "patient" "Hello"
                "World" None false w_demo eq_refl) as [_ Hidem].
    apply Hidem. reflexivity.
Defined.

(** ** The token store *)

Lemma valid_tokens_elem (l : list PyVal) (t : string) :
  t ∈ valid_tokens l <-> PStr t ∈ l /\ t <> "".
Proof.
  induction l as [|v l IH]; simpl.
  - split; [intros H; inversion H | intros [H _]; inversion H].
  - assert (Hskip : (t ∈ valid_tokens l <-> PStr t ∈ v :: l /\ t <> "") ->
                    v <> PStr t \/ t = "" ->
                    (t ∈ valid_tokens l <-> PStr t ∈ v :: l /\ t <> "")) by auto.
    destruct v as [| b | z | s | ts | l0];
      try (rewrite IH, elem_of_cons; split;
           [intros [H Hne]; split; [right; exact H | exact Hne]
           |intros [[H|H] Hne]; [discriminate H | split; assumption]]).
    unfold str_truthy. destruct (String.eqb_spec s "") as [Hs|Hs]; simpl.
    + rewrite IH, elem_of_cons. split.
      * intros [H Hne]. split; [right; exact H | exact Hne].
      * intros [[H|H] Hne]; [inversion H; subst; congruence | split; assumption].
    + rewrite !elem_of_cons, IH. split.
      * intros [H|[H Hne]]; [subst; split; [left; reflexivity | exact Hs]
                            | split; [right; exact H | exact Hne]].
      * intros [[H|H] Hne]; [inversion H; left; reflexivity | right; split; assumption].
Qed.

Lemma str_truthy_nonempty (s : string) : str_truthy s = true <-> s <> "".
Proof.
  unfold str_truthy. destruct (String.eqb_spec s ""); simpl; split;
    congruence.
Qed.

Lemma valid_tokens_nonempty (l : list PyVal) :
  Forall (fun t => t <> "") (valid_tokens l).
Proof.
  apply Forall_forall. intros t Ht. apply valid_tokens_elem in Ht. tauto.
Qed.

(** [get_user_fcm_tokens] case by case. *)
Lemma get_user_fcm_tokens_run (E : Env) user_id user_type w :
  get_user_fcm_tokens E user_id user_type w =
  if negb (db E) then ([], w)
  else
    match store_fault E (store_ops w) with
    | Some _ => ([], tick w)
    | None =>
        match users w !! user_id with
        | None => ([], tick w)
        | Some d =>
            match dict_get d "fcmTokens" with
            | PList l => (valid_tokens l, tick w)
            | PStr s => (if str_truthy s then [s] else [], tick w)
            | _ => ([], tick w)
            end
        end
    end.
Proof.
  unfold get_user_fcm_tokens. rewrite users_get_run.
  destruct (db E); simpl; [|reflexivity].
  destruct (store_fault E (store_ops w)); [reflexivity|].
  destruct (users w !! user_id) as [d|]; [|reflexivity].
  destruct (dict_get d "fcmTokens") as [| | | s | | l]; try reflexivity.
  - destruct (str_truthy s); reflexivity.
  - destruct (valid_tokens l); reflexivity.
Qed.

Lemma tokens_for_get (E : Env) user_id user_type w :
  tokens_for E user_id user_type w = get_user_fcm_tokens E user_id user_type w.
Proof.
  unfold tokens_for, get_doctor_fcm_tokens, get_patient_fcm_tokens.
  destruct (user_type =? "doctor"), (user_type =? "patient");
    rewrite !get_user_fcm_tokens_run; reflexivity.
Qed.

Lemma dict_get_list (d : gmap string PyVal) k l :
  dict_get d k = PList l -> d !! k = Some (PList l).
Proof. unfold dict_get. destruct (d !! k); congruence. Qed.

Lemma dict_get_str (d : gmap string PyVal) k s :
  dict_get d k = PStr s -> d !! k = Some (PStr s).
Proof. unfold dict_get. destruct (d !! k); congruence. Qed.

(** What is resolved from a document, once the read is answered. *)
Lemma resolved_iff_target (d : gmap string PyVal) (t : string) :
  t ∈ match dict_get d "fcmTokens" with
      | PList l => valid_tokens l
      | PStr s => if str_truthy s then [s] else []
      | _ => []
      end
  <-> is_target d t.
Proof.
  unfold is_target.
  destruct (dict_get d "fcmTokens") as [| b | z | s | ts | l] eqn:Hf;
    try (split; [intros H; inversion H|];
         intros [_ [H | (l0 & H & _)]]; unfold dict_get in Hf; rewrite H in Hf;
         discriminate).
  - apply dict_get_str in Hf. rewrite Hf.
    destruct (str_truthy s) eqn:Hs.
    + apply str_truthy_nonempty in Hs. rewrite list_elem_of_singleton. split.
      * intros ->. split; [exact Hs | left; reflexivity].
      * intros [_ [H | (l0 & H & _)]]; congruence.
    + split; [intros H; inversion H|].
      intros [Hne [H | (l0 & H & _)]]; [|discriminate].
      inversion H; subst. apply str_truthy_nonempty in Hne. congruence.
  - apply dict_get_list in Hf. rewrite Hf, valid_tokens_elem. split.
    + intros [Hin Hne]. split; [exact Hne | right; exists l; auto].
    + intros [Hne [H | (l0 & H & Hin)]]; [discriminate|].
      inversion H; subst. auto.
Qed.

(** C7, as the code has it.  [get_user_fcm_tokens] raises nothing: it
    returns the empty list when the user has no document, exactly as when
    the document holds no valid target (no field, a value that is neither a
    list nor a string, an empty string, a list without a non-empty string).
    Once the read is answered, the tokens returned are the valid targets of
    the document: from a stored list the non-empty strings, in order.  Only
    these are counted in [tokens_targeted]. *)
Theorem resolve_returns_empty_for_unknown_user
    (E : Env) user_id user_type w :
  let tokens := (get_user_fcm_tokens E user_id user_type w).1 in
  (users w !! user_id = None -> tokens = []) /\
  (forall d,
     users w !! user_id = Some d ->
     (forall t, ~ is_target d t) ->
     tokens = []) /\
  (forall d,
     db E = true -> store_fault E (store_ops w) = None ->
     users w !! user_id = Some d ->
     (forall t, t ∈ tokens <-> is_target d t) /\
     (forall l, d !! "fcmTokens" = Some (PList l) ->
                tokens = valid_tokens l)) /\
  (forall title body data hp st s f n rm w',
     send_notifications_to_user E user_id user_type title body data hp w
       = (Ok (Summary st s f n rm), w') ->
     n = length tokens).
Proof.
  cbv zeta. split; [|split; [|split]].
  - intros Hnone. rewrite get_user_fcm_tokens_run, Hnone.
    destruct (negb (db E)), (store_fault E (store_ops w)); reflexivity.
  - intros d Hd Hno. rewrite get_user_fcm_tokens_run, Hd.
    destruct (negb (db E)); [reflexivity|].
    destruct (store_fault E (store_ops w)); [reflexivity|].
    pose proof (resolved_iff_target d) as Hiff.
    destruct (dict_get d "fcmTokens") as [| b | z | s | ts | l];
      try reflexivity; simpl.
    + destruct (str_truthy s); [|reflexivity].
      exfalso. apply (Hno s). apply Hiff. left.
    + destruct (valid_tokens l) as [|t ts]; [reflexivity|].
      exfalso. apply (Hno t). apply Hiff. left.
  - intros d Hdb Hok Hd. rewrite get_user_fcm_tokens_run, Hdb, Hok, Hd.
    simpl. split.
    + intros t. rewrite <- resolved_iff_target.
      destruct (dict_get d "fcmTokens") as [| b | z | s | ts | l];
        reflexivity.
    + intros l Hl. unfold dict_get. rewrite Hl. reflexivity.
  - intros title body data hp st s f n rm w' Hrun.
    destruct (firebase_initialized E) eqn:Hinit.
    2:{ unfold send_notifications_to_user in Hrun. rewrite Hinit in Hrun.
        discriminate. }
    rewrite send_notifications_to_user_run in Hrun by assumption.
    rewrite tokens_for_get in Hrun.
    destruct (get_user_fcm_tokens E user_id user_type w) as [tokens w1].
    destruct tokens as [|t ts]; [discriminate|].
    destruct (send_loop E user_id (make_message title body data hp) (t :: ts)
                (mkCounters 0 0 0) w1).
    inversion Hrun; reflexivity.
Qed.

Lemma resolve_returns_empty_for_unknown_user_witness :
  (get_user_fcm_tokens E_up "ghost" "user" w_demo).1 = [] /\
  (get_user_fcm_tokens E_up "N" "user" w_demo).1 = [] /\
  (get_user_fcm_tokens E_up "R" "user" w_demo).1 = ["t1"; "t2"].
Proof.
  split; [|split].
  - apply (resolve_returns_empty_for_unknown_user E_up "ghost" "user" w_demo).
    reflexivity.
  - apply (proj1 (proj2 (resolve_returns_empty_for_unknown_user
                           E_up "N" "user" w_demo))
             {[ "name" := PStr "no device" ]}); [reflexivity|].
    intros t [_ [H | (l & H & _)]]; vm_compute in H; discriminate.
  - apply (proj2 (proj1 (proj2 (proj2 (resolve_returns_empty_for_unknown_user
                                         E_up "R" "user" w_demo)))
                    {[ "fcmTokens" :=
                         PList [PStr "t1"; PStr ""; PInt 3; PStr "t2"] ]}
                    eq_refl eq_refl eq_refl)
             [PStr "t1"; PStr ""; PInt 3; PStr "t2"]).
    reflexivity.
Defined.

(** C7, as the specification states it, fails on a user without document:
    the specification asks for [RecipientNotFound], the function returns the
    empty list. *)
Lemma resolve_unknown_user_counterexample :
  users w_demo !! "ghost" = None /\
  resolveTargets_spec E_up w_demo "ghost" = inl RecipientNotFound /\
  (get_user_fcm_tokens E_up "ghost" "user" w_demo).1 = [] /\
  inr (get_user_fcm_tokens E_up "ghost" "user" w_demo).1
    <> resolveTargets_spec E_up w_demo "ghost".
Proof.
  repeat split; try reflexivity. vm_compute. discriminate.
Qed.

(** [list.remove] keeps a sub-list. *)
Lemma py_remove_elem (t : string) (l : list PyVal) (v : PyVal) :
  v ∈ py_remove t l -> v ∈ l.
Proof.
  induction l as [|x l IH]; simpl; [auto|].
  destruct (str_eq t x).
  - intros H. right. exact H.
  - rewrite !elem_of_cons. intros [H|H]; [left; exact H | right; auto].
Qed.

Lemma py_remove_NoDup (t : string) (l : list PyVal) :
  NoDup l -> NoDup (py_remove t l).
Proof.
  induction 1 as [|x l Hx Hl IH]; simpl; [constructor|].
  destruct (str_eq t x); [exact Hl|].
  constructor; [|exact IH].
  intros H. apply Hx. eapply py_remove_elem. exact H.
Qed.

Lemma py_remove_clean (t : string) (l : list PyVal) :
  clean l -> clean (py_remove t l).
Proof.
  intros [Hnd Hne]. split; [apply py_remove_NoDup; exact Hnd|].
  intros H. apply Hne. eapply py_remove_elem. exact H.
Qed.

Lemma py_remove_length (t : string) (l : list PyVal) :
  py_in t l = true -> S (length (py_remove t l)) = length l.
Proof.
  unfold py_in. induction l as [|v l IH]; simpl; [discriminate|].
  destruct (str_eq t v); simpl; [reflexivity|].
  intros H. rewrite IH by exact H. reflexivity.
Qed.

Lemma str_eq_true (t : string) (v : PyVal) : str_eq t v = true -> v = PStr t.
Proof.
  destruct v; simpl; try discriminate.
  intros H. apply String.eqb_eq in H. congruence.
Qed.

Lemma count_py_remove_same (t : string) (l : list PyVal) :
  py_in t l = true ->
  S (count (str_eq t) (py_remove t l)) = count (str_eq t) l.
Proof.
  unfold py_in. induction l as [|v l IH]; simpl; [discriminate|].
  destruct (str_eq t v) eqn:Hv; simpl; [reflexivity|].
  intros H. rewrite Hv. simpl. apply IH. exact H.
Qed.

Lemma count_py_remove_other (s t : string) (l : list PyVal) :
  s <> t -> count (str_eq s) (py_remove t l) = count (str_eq s) l.
Proof.
  intros Hne. induction l as [|v l IH]; simpl; [reflexivity|].
  destruct (str_eq t v) eqn:Hv; simpl.
  - apply str_eq_true in Hv. subst v. simpl.
    destruct (String.eqb_spec s t); [contradiction|reflexivity].
  - rewrite IH. reflexivity.
Qed.

Lemma py_in_count (t : string) (l : list PyVal) :
  py_in t l = true <-> 0 < count (str_eq t) l.
Proof.
  unfold py_in. induction l as [|v l IH]; simpl.
  - split; [discriminate | lia].
  - destruct (str_eq t v); simpl; [split; [lia | reflexivity] | exact IH].
Qed.

(** What a successful prune writes: the stored list without the first
    occurrence of the token, or no field at all for a single string. *)
Lemma remove_unregistered_token_true (E : Env) user_id token w w' :
  remove_unregistered_token E user_id token w = (true, w') ->
  exists d,
    users w !! user_id = Some d /\
    ((exists l, d !! "fcmTokens" = Some (PList l) /\
                py_in token l = true /\
                users w' = <[user_id := <["fcmTokens" := PList (py_remove token l)]> d]>
                             (users w))
     \/ (d !! "fcmTokens" = Some (PStr token) /\
         users w' = <[user_id := delete "fcmTokens" d]> (users w))).
Proof.
  rewrite remove_unregistered_token_run. cbv zeta. intros H.
  destruct (users w !! user_id) as [d|] eqn:Hd.
  2:{ repeat case_match; simplify_eq. }
  exists d. split; [reflexivity|].
  unfold dict_get in H.
  destruct (d !! "fcmTokens") as [v|] eqn:Hv.
  2:{ repeat case_match; simplify_eq. }
  destruct v as [| ? | ? | s | ? | l0];
    try (repeat case_match; simplify_eq; fail).
  - destruct (String.eqb_spec s token) as [->|].
    2:{ repeat case_match; simplify_eq. }
    right. repeat case_match; simplify_eq. split; reflexivity.
  - left. exists l0. repeat case_match; simplify_eq. repeat split.
Qed.

(** A prune that answers [False] has written nothing. *)
Lemma remove_unregistered_token_false (E : Env) user_id token w w' :
  remove_unregistered_token E user_id token w = (false, w') ->
  users w' = users w.
Proof.
  rewrite remove_unregistered_token_run. cbv zeta. intros H.
  repeat case_match; simplify_eq; reflexivity.
Qed.

(** The list stored for [uid] once the document of [user_id] is [d]. *)
Lemma stored_list_insert (w w' : World) user_id d uid :
  users w' = <[user_id := d]> (users w) ->
  stored_list w' uid =
  if decide (user_id = uid)
  then match d !! "fcmTokens" with Some (PList l) => Some l | _ => None end
  else stored_list w uid.
Proof.
  intros Hu. unfold stored_list. rewrite Hu, lookup_insert.
  destruct (decide (user_id = uid)); reflexivity.
Qed.

Lemma keeps_clean_refl (w w' : World) :
  users w' = users w -> keeps_clean w w'.
Proof.
  intros Hu uid l' Hl'. exists l'. split; [|auto].
  unfold stored_list in *. rewrite <- Hu. exact Hl'.
Qed.

Lemma keeps_clean_trans (w1 w2 w3 : World) :
  keeps_clean w1 w2 -> keeps_clean w2 w3 -> keeps_clean w1 w3.
Proof.
  intros H12 H23 uid l3 Hl3.
  destruct (H23 uid l3 Hl3) as (l2 & Hl2 & Hc23).
  destruct (H12 uid l2 Hl2) as (l1 & Hl1 & Hc12).
  exists l1. split; [exact Hl1 | auto].
Qed.

Lemma remove_unregistered_token_keeps_clean (E : Env) user_id token w :
  keeps_clean w (remove_unregistered_token E user_id token w).2.
Proof.
  destruct (remove_unregistered_token E user_id token w) as [b w'] eqn:Hrm.
  simpl. destruct b.
  - apply remove_unregistered_token_true in Hrm.
    destruct Hrm as (d & Hd & [(l & Hv & Hin & Hu) | (Hv & Hu)]);
      intros uid l' Hl'; rewrite (stored_list_insert w w' _ _ uid Hu) in Hl';
      destruct (decide (user_id = uid)) as [<-|Hne];
      try (exists l'; split; [exact Hl' | auto]; fail).
    + rewrite lookup_insert_eq in Hl'. inversion Hl'; subst l'.
      exists l. split; [|apply py_remove_clean].
      unfold stored_list. rewrite Hd, Hv. reflexivity.
    + rewrite lookup_delete_eq in Hl'. discriminate.
  - apply remove_unregistered_token_false in Hrm.
    apply keeps_clean_refl. exact Hrm.
Qed.

Lemma send_loop_keeps_clean (E : Env) user_id mk tokens : forall c w,
  keeps_clean w (send_loop E user_id mk tokens c w).2.
Proof.
  induction tokens as [|t ts IH]; intros c w; simpl.
  - apply keeps_clean_refl. reflexivity.
  - destruct (send_one E user_id mk t c w) as [c1 w1] eqn:H1.
    eapply keeps_clean_trans; [|apply IH].
    unfold send_one in H1.
    destruct (fcm_send E (fcm_log w) (mk t));
      try (inversion H1; subst; apply keeps_clean_refl; reflexivity).
    pose proof (remove_unregistered_token_keeps_clean E user_id t
                  (log_send (mk t) w)) as Hk.
    destruct (remove_unregistered_token E user_id t (log_send (mk t) w))
      as [[|] w2]; inversion H1; subst;
      (eapply keeps_clean_trans; [|exact Hk]);
      apply keeps_clean_refl; reflexivity.
Qed.

Lemma send_notifications_to_user_keeps_clean
    (E : Env) user_id user_type title body data hp w :
  keeps_clean w
    (send_notifications_to_user E user_id user_type title body data hp w).2.
Proof.
  destruct (firebase_initialized E) eqn:Hinit.
  2:{ unfold send_notifications_to_user. rewrite Hinit.
      apply keeps_clean_refl. reflexivity. }
  rewrite send_notifications_to_user_run by assumption.
  destruct (tokens_for E user_id user_type w) as [tokens w1] eqn:Htok.
  apply tokens_for_frame in Htok. destruct Htok as (Hu & _).
  destruct tokens as [|t ts]; [apply keeps_clean_refl; exact Hu|].
  pose proof (send_loop_keeps_clean E user_id
                (make_message title body data hp) (t :: ts)
                (mkCounters 0 0 0) w1) as Hk.
  destruct (send_loop E user_id (make_message title body data hp) (t :: ts)
              (mkCounters 0 0 0) w1) as [c w2].
  eapply keeps_clean_trans; [|exact Hk]. apply keeps_clean_refl. exact Hu.
Qed.

Lemma count_elem (s : string) (l : list PyVal) :
  0 < count (str_eq s) l <-> PStr s ∈ l.
Proof.
  induction l as [|v l IH]; simpl.
  - split; [lia | intros H; inversion H].
  - rewrite elem_of_cons. destruct (str_eq s v) eqn:Hv.
    + apply str_eq_true in Hv. split; [intros _; left; congruence | lia].
    + rewrite IH. split; [intros H; right; exact H|].
      intros [H|H]; [|exact H]. subst v. simpl in Hv.
      rewrite String.eqb_refl in Hv. discriminate.
Qed.

Lemma count_twice_not_NoDup (s : string) (l : list PyVal) :
  2 <= count (str_eq s) l -> ~ NoDup l.
Proof.
  intros H Hnd. induction Hnd as [|v l Hv Hnd IH]; simpl in H; [lia|].
  destruct (str_eq s v) eqn:Hs; [|apply IH; lia].
  apply str_eq_true in Hs. subst v. apply Hv. apply count_elem. lia.
Qed.

(** C8, as the code has it.  Pruning preserves the invariant recipient by
    recipient and does not establish it.  Whatever token is pruned for
    whatever user, every token list stored afterwards comes from the list
    the same recipient had before and has no duplicate and no empty string
    if that one had none; the same holds across a whole fan-out.  A
    successful prune of a stored list writes that list without the first
    occurrence of the token: one occurrence of the token less, every other
    entry as often as before, so that empty strings and duplicates already
    stored stay. *)
Theorem prune_preserves_clean_lists (E : Env) user_id token w :
  let run := remove_unregistered_token E user_id token w in
  (forall uid l',
     stored_list run.2 uid = Some l' ->
     exists l, stored_list w uid = Some l /\ (clean l -> clean l')) /\
  (forall l,
     stored_list w user_id = Some l ->
     run.1 = true ->
     stored_list run.2 user_id = Some (py_remove token l) /\
     S (count (str_eq token) (py_remove token l)) = count (str_eq token) l /\
     (forall s, s <> token ->
        count (str_eq s) (py_remove token l) = count (str_eq s) l) /\
     (token <> "" -> PStr "" ∈ l -> PStr "" ∈ py_remove token l) /\
     (forall s, s <> token -> 2 <= count (str_eq s) l ->
        ~ NoDup (py_remove token l))) /\
  (forall user_type title body data hp uid l',
     stored_list
       (send_notifications_to_user E user_id user_type title body data hp w).2
       uid = Some l' ->
     exists l, stored_list w uid = Some l /\ (clean l -> clean l')).
Proof.
  cbv zeta. split; [|split].
  - apply remove_unregistered_token_keeps_clean.
  - intros l Hl Htrue.
    destruct (remove_unregistered_token E user_id token w) as [b w'] eqn:Hrm.
    simpl in *. subst b.
    apply remove_unregistered_token_true in Hrm.
    destruct Hrm as (d & Hd & [(l0 & Hv & Hin & Hu) | (Hv & _)]);
      unfold stored_list in Hl; rewrite Hd, Hv in Hl; [|discriminate].
    inversion Hl; subst l0.
    split; [|split; [|split; [|split]]].
    + unfold stored_list. rewrite Hu, lookup_insert_eq, lookup_insert_eq.
      reflexivity.
    + apply count_py_remove_same. exact Hin.
    + intros s Hne. apply count_py_remove_other. exact Hne.
    + intros Hne Hempty. apply count_elem.
      rewrite count_py_remove_other by congruence.
      apply count_elem. exact Hempty.
    + intros s Hne Htwice. apply (count_twice_not_NoDup s).
      rewrite count_py_remove_other by exact Hne. exact Htwice.
  - intros user_type title body data hp.
    apply send_notifications_to_user_keeps_clean.
Qed.

Lemma clean_xyz : clean [PStr "x"; PStr "y"; PStr "z"].
Proof.
  split.
  - repeat (constructor;
            [rewrite ?elem_of_cons, elem_of_nil; intuition discriminate|]).
    constructor.
  - rewrite ?elem_of_cons, elem_of_nil. intuition discriminate.
Qed.

Lemma prune_preserves_clean_lists_witness :
  stored_list (remove_unregistered_token E_up "C" "y" w_clean).2 "C"
    = Some [PStr "x"; PStr "z"] /\
  clean [PStr "x"; PStr "z"].
Proof.
  destruct (prune_preserves_clean_lists E_up "C" "y" w_clean)
    as (Hkeep & Hwrite & _).
  destruct (Hwrite [PStr "x"; PStr "y"; PStr "z"] eq_refl eq_refl)
    as (Hstored & _).
  split; [exact Hstored|].
  destruct (Hkeep "C" [PStr "x"; PStr "z"] Hstored) as (l & Hl & Hclean).
  apply Hclean. vm_compute in Hl. inversion Hl. exact clean_xyz.
Defined.

(** C8, as the specification states it, fails: a successful prune of a
    stored list that holds a duplicate and an empty string leaves both in
    place. *)
Lemma prune_leaves_duplicates_counterexample :
  ~ (forall (E : Env) user_id token w l,
       (remove_unregistered_token E user_id token w).1 = true ->
       stored_list (remove_unregistered_token E user_id token w).2 user_id
         = Some l ->
       clean l).
Proof.
  intros H.
  assert (Hc : clean [PStr "a"; PStr "a"; PStr ""]).
  { apply (H E_up "Dup" "b" w_demo); vm_compute; reflexivity. }
  destruct Hc as [Hnd _]. inversion Hnd as [|x l Hx Hl]; subst.
  apply Hx. left.
Qed.

(** C10.  When [fcmTokens] holds one non-empty string, resolving returns
    that string alone; pruning it deletes the field and returns [True];
    resolving again returns the empty list. *)
Theorem single_string_token (E : Env) user_id user_type w d s :
  db E = true ->
  (forall n, store_ops w <= n -> store_fault E n = None) ->
  users w !! user_id = Some d ->
  d !! "fcmTokens" = Some (PStr s) ->
  s <> "" ->
  exists w1 w2 w3,
    get_user_fcm_tokens E user_id user_type w = ([s], w1) /\
    remove_unregistered_token E user_id s w1 = (true, w2) /\
    users w2 !! user_id = Some (delete "fcmTokens" d) /\
    delete "fcmTokens" d !! "fcmTokens" = None /\
    get_user_fcm_tokens E user_id user_type w2 = ([], w3).
Proof.
  intros Hdb Hok Hd Hs Hne.
  assert (Htruthy : str_truthy s = true).
  { unfold str_truthy. destruct (String.eqb_spec s ""); [contradiction|reflexivity]. }
  eexists _, _, _. split; [|split; [|split; [|split]]].
  - unfold get_user_fcm_tokens. rewrite users_get_run, Hdb.
    rewrite (Hok (store_ops w)) by lia. simpl.
    unfold dict_get. rewrite Hd, Hs, Htruthy. reflexivity.
  - rewrite remove_unregistered_token_run. cbv zeta. rewrite Hdb. simpl.
    rewrite (Hok (S (store_ops w))) by lia. rewrite Hd.
    unfold dict_get. rewrite Hs, String.eqb_refl.
    rewrite (Hok (S (S (store_ops w)))) by lia. reflexivity.
  - simpl. rewrite lookup_insert_eq. reflexivity.
  - apply lookup_delete_eq.
  - unfold get_user_fcm_tokens. rewrite users_get_run, Hdb. simpl.
    rewrite (Hok (S (S (S (store_ops w))))) by lia.
    rewrite lookup_insert_eq. unfold dict_get. rewrite lookup_delete_eq.
    reflexivity.
Qed.

Lemma single_string_token_witness :
  exists w1 w2 w3,
    get_user_fcm_tokens E_up "S" "patient" w_demo = (["only"], w1) /\
    remove_unregistered_token E_up "S" "only" w1 = (true, w2) /\
    get_user_fcm_tokens E_up "S" "patient" w2 = ([], w3).
Proof.
  destruct (single_string_token E_up "S" "patient" w_demo
              {[ "fcmTokens" := PStr "only" ]} "only")
    as (w1 & w2 & w3 & H1 & H2 & _ & _ & H3);
    try reflexivity; try discriminate.
  exists w1, w2, w3. auto.
Defined.

(** ** The appointment workflow *)

(** A stored appointment sits under a document path. *)
Lemma appointments_valid (w : World) id d :
  appointments w !! id = Some d -> is_document_id id = true.
Proof.
  unfold appointments. intros H. apply map_lookup_filter_Some in H.
  destruct H as [_ H]. exact H.
Qed.

(** Writing a document under a document path. *)
Lemma appointments_insert (w w0 : World) id x :
  is_document_id id = true ->
  appointments (set_appointments (<[id := x]> (appointments w)) w0)
  = <[id := x]> (appointments w).
Proof.
  intros Hid. unfold appointments, set_appointments. simpl.
  apply map_eq. intros i. apply option_eq. intros y.
  rewrite map_lookup_filter_Some.
  destruct (decide (id = i)) as [->|Hne].
  - rewrite !lookup_insert_eq. simpl. tauto.
  - rewrite !lookup_insert_ne by exact Hne. rewrite map_lookup_filter_Some.
    tauto.
Qed.

Lemma appointments_update_run (E : Env) id upd w :
  appointments_update E id upd w =
  match store_fault E (store_ops w) with
  | Some msg => (Raise (StoreException msg), tick w)
  | None =>
      match appointments w !! id with
      | Some d =>
          (Ok tt,
           set_appointments
             (<[id := dict_update d (upd (PTimestamp (server_time E (store_ops w))))]>
                (appointments w))
             (tick w))
      | None => (Raise (StoreException "NotFound"), tick w)
      end
  end.
Proof.
  unfold appointments_update, store_call. unfold_monad. simpl.
  destruct (store_fault E (store_ops w)); simpl; [reflexivity|].
  change (appointments (tick w)) with (appointments w).
  destruct (appointments w !! id); reflexivity.
Qed.

(** The write sets [status] to the value of the new status. *)
Lemma update_data_status (E : Env) payload d ts :
  dict_update d (update_data payload ts) !! "status"
  = Some (PStr (status_value (new_status payload))).
Proof.
  unfold dict_update, update_data.
  destruct (cancellation_reason payload) as [r|]; simpl;
    [destruct (str_truthy r); simpl|];
    repeat (rewrite lookup_insert_ne by discriminate);
    apply lookup_insert_eq.
Qed.

(** A fan-out raises nothing once the module is initialised, and leaves
    the appointments alone. *)
Lemma send_notifications_to_user_returns
    (E : Env) user_id user_type title body data hp w :
  firebase_initialized E = true ->
  exists r w',
    send_notifications_to_user E user_id user_type title body data hp w
      = (Ok r, w') /\
    appointments w' = appointments w.
Proof.
  intros Hinit. rewrite send_notifications_to_user_run by assumption.
  destruct (tokens_for E user_id user_type w) as [tokens w1] eqn:Htok.
  apply tokens_for_frame in Htok. destruct Htok as (_ & Ha & _).
  destruct tokens as [|t ts]; [eexists _, _; split; [reflexivity | exact Ha]|].
  destruct (send_loop E user_id (make_message title body data hp) (t :: ts)
              (mkCounters 0 0 0) w1) as [c w2] eqn:Hloop.
  apply send_loop_spec in Hloop. destruct Hloop as (_ & Ha' & _).
  eexists _, _. split; [reflexivity | congruence].
Qed.

Lemma notify_patient_returns (E : Env) patient_id title body data w :
  firebase_initialized E = true ->
  exists r w',
    notify_patient E patient_id title body data w = (Ok r, w') /\
    appointments w' = appointments w.
Proof.
  intros Hinit. unfold notify_patient.
  destruct patient_id;
    try (eexists _, _; split; reflexivity).
  apply send_notifications_to_user_returns. exact Hinit.
Qed.

(** C1.  For a request that passes the three checks, with the store
    answering the read and the write, the new status is written first and
    the patient is notified from the world that holds it; whatever the
    notification returns, the endpoint answers [success] with that result
    embedded, and the stored status is the new one. *)
Theorem transition_survives_notification
    (E : Env) (payload : UpdateAppointmentStatusPayload) w d :
  firebase_initialized E = true ->
  db E = true ->
  store_fault E (store_ops w) = None ->
  store_fault E (S (store_ops w)) = None ->
  appointments w !! appointment_id payload = Some d ->
  truthy (dict_get d "patientId") = true ->
  doctor_mismatch (doctor_id payload) (dict_get d "doctorId") = false ->
  exists w1 d' notification_result w',
    (* the write *)
    appointments_update E (appointment_id payload) (update_data payload) (tick w)
      = (Ok tt, w1) /\
    fcm_log w1 = fcm_log w /\
    appointments w1 !! appointment_id payload = Some d' /\
    d' !! "status" = Some (PStr (status_value (new_status payload))) /\
    (* then the notification *)
    notify_patient E (dict_get d "patientId") (notif_title payload)
                   (notif_body E payload d) (data_payload_patient payload) w1
      = (Ok notification_result, w') /\
    (* the answer and the final store *)
    update_appointment_status E payload w
      = (Ok (mkWorkflowResult
               "success"
               ("Appointment status updated to "
                  +:+ status_value (new_status payload))
               notification_result),
         w') /\
    appointments w' !! appointment_id payload = Some d'.
Proof.
  intros Hinit Hdb Hread Hwrite Happ Hpat Hdoc.
  pose proof (appointments_valid _ _ _ Happ) as Hid.
  destruct (notify_patient_returns E (dict_get d "patientId")
              (notif_title payload) (notif_body E payload d)
              (data_payload_patient payload)
              (set_appointments
                 (<[appointment_id payload :=
                      dict_update d (update_data payload
                        (PTimestamp (server_time E (S (store_ops w)))))]>
                    (appointments w))
                 (tick (tick w))) Hinit)
    as (r & w' & Hnotify & Ha).
  eexists _, _, r, w'.
  assert (Hupd : appointments_update E (appointment_id payload)
                   (update_data payload) (tick w)
                 = (Ok tt,
                    set_appointments
                      (<[appointment_id payload :=
                           dict_update d (update_data payload
                             (PTimestamp (server_time E (S (store_ops w)))))]>
                         (appointments w))
                      (tick (tick w)))).
  { rewrite appointments_update_run.
    change (store_ops (tick w)) with (S (store_ops w)).
    change (appointments (tick w)) with (appointments w).
    rewrite Hwrite, Happ. reflexivity. }
  split; [exact Hupd|]. split; [reflexivity|].
  split; [rewrite appointments_insert by exact Hid; apply lookup_insert_eq|].
  split; [apply (update_data_status E)|].
  split; [exact Hnotify|]. split.
  - unfold update_appointment_status. rewrite Hinit, Hdb, Hid.
    cbn [negb orb].
    unfold try_except, update_appointment_status_body.
    unfold mbind, M_bind, bind at 1. rewrite appointments_get_run, Hread, Happ.
    rewrite Hpat, Hdoc. cbn [negb].
    unfold mbind, M_bind, bind at 1. rewrite Hupd.
    unfold bind, mret, M_ret, ret. rewrite Hnotify. reflexivity.
  - rewrite Ha, appointments_insert by exact Hid. apply lookup_insert_eq.
Qed.

Lemma transition_survives_notification_witness :
  exists notification_result w' d',
    update_appointment_status E_up (mkPayload "A" CONFIRMED (Some "D") None)
                              w_demo
      = (Ok (mkWorkflowResult "success"
                              "Appointment status updated to confirmed"
                              notification_result), w') /\
    appointments w' !! "A" = Some d' /\
    d' !! "status" = Some (PStr "confirmed").
Proof.
  destruct (transition_survives_notification E_up
              (mkPayload "A" CONFIRMED (Some "D") None) w_demo
              {[ "patientId" := PStr "F"; "doctorId" := PStr "D";
                 "status" := PStr "pending" ]}
              eq_refl eq_refl eq_refl eq_refl eq_refl eq_refl eq_refl)
    as (w1 & d' & r & w' & _ & _ & _ & Hstatus & _ & Hrun & Hfinal).
  exists r, w', d'. split; [exact Hrun|]. split; [exact Hfinal | exact Hstatus].
Defined.

(** A request the endpoint turns down leaves every field of the world but
    the operation counter as it was. *)
Lemma update_appointment_status_rejected (E : Env) payload w :
  match appointments w !! appointment_id payload with
  | None => True
  | Some d =>
      truthy (dict_get d "patientId") = false \/
      doctor_mismatch (doctor_id payload) (dict_get d "doctorId") = true
  end ->
  exists e w',
    update_appointment_status E payload w = (Raise e, w') /\
    appointments w' = appointments w /\ users w' = users w /\
    fcm_log w' = fcm_log w /\ prune_log w' = prune_log w.
Proof.
  intros Hrej. unfold update_appointment_status.
  destruct (negb (firebase_initialized E) || negb (db E));
    [eexists _, _; split; [reflexivity | auto]|].
  destruct (negb (is_document_id (appointment_id payload)));
    [eexists _, _; split; [reflexivity | auto]|].
  unfold try_except, update_appointment_status_body.
  unfold mbind, M_bind, bind at 1. rewrite appointments_get_run.
  destruct (store_fault E (store_ops w));
    [eexists _, _; split; [reflexivity | auto]|].
  destruct (appointments w !! appointment_id payload) as [d|];
    [|eexists _, _; split; [reflexivity | auto]].
  destruct (truthy (dict_get d "patientId")); simpl;
    [|eexists _, _; split; [reflexivity | auto]].
  destruct Hrej as [Hrej|Hrej]; [discriminate|]. rewrite Hrej.
  eexists _, _; split; [reflexivity | auto].
Qed.

(** C2, at the input where the code departs from it.  An appointment id
    that is not a document path names no record.  The endpoint builds
    [appointment_ref] before its [try], so the [ValueError] of the client
    reaches the caller as it is, where an absent record is to be answered
    with 404 "Appointment not found."; nothing is written.  (The two helpers
    build their reference inside their [try].) *)
Theorem absent_record_id_raises_value_error
    (E : Env) (payload : UpdateAppointmentStatusPayload) w :
  firebase_initialized E = true ->
  db E = true ->
  is_document_id (appointment_id payload) = false ->
  appointments w !! appointment_id payload = None /\
  update_appointment_status E payload w
  = (Raise (ValueError "A document must have an even number of path elements"),
     w) /\
  (update_appointment_status E payload w).1
  <> Raise (HTTPException 404 "Appointment not found.").
Proof.
  intros Hinit Hdb Hid.
  assert (Hrun : update_appointment_status E payload w
                 = (Raise (ValueError
                             "A document must have an even number of path elements"),
                    w)).
  { unfold update_appointment_status. rewrite Hinit, Hdb, Hid. reflexivity. }
  split; [|split].
  - destruct (appointments w !! appointment_id payload) as [d|] eqn:Hd;
      [|reflexivity].
    apply appointments_valid in Hd. congruence.
  - exact Hrun.
  - rewrite Hrun. discriminate.
Qed.

Lemma absent_record_id_raises_value_error_witness :
  appointments w_demo !! "a/b" = None /\
  update_appointment_status E_up (mkPayload "a/b" CONFIRMED None None) w_demo
  = (Raise (ValueError "A document must have an even number of path elements"),
     w_demo).
Proof.
  destruct (absent_record_id_raises_value_error E_up
              (mkPayload "a/b" CONFIRMED None None) w_demo
              eq_refl eq_refl eq_refl) as (Habs & Hrun & _).
  split; [exact Habs | exact Hrun].
Defined.

(** X26.  When the appointment does not exist, or its [patientId] is
    missing (falsy), or the request names a doctor (a non-empty
    [doctor_id]) who is not the doctor of the record,
    the endpoint raises and writes nothing: appointments and users are as
    before, nothing is sent.  With the services initialised, an appointment
    id that is a document path and the read answered, the error is 404 for
    the absent record, 500 "Appointment data incomplete." for the incomplete
    one, 403 for the wrong doctor: three different errors. *)
Theorem rejected_request_writes_nothing
    (E : Env) (payload : UpdateAppointmentStatusPayload) w :
  let id := appointment_id payload in
  let run := update_appointment_status E payload w in
  match appointments w !! id with
  | None => True
  | Some d =>
      truthy (dict_get d "patientId") = false \/
      doctor_mismatch (doctor_id payload) (dict_get d "doctorId") = true
  end ->
  (exists e, run.1 = Raise e) /\
  appointments run.2 = appointments w /\
  users run.2 = users w /\
  fcm_log run.2 = fcm_log w /\
  (firebase_initialized E = true -> db E = true ->
   is_document_id id = true ->
   store_fault E (store_ops w) = None ->
   match appointments w !! id with
   | None => run.1 = Raise (HTTPException 404 "Appointment not found.")
   | Some d =>
       if truthy (dict_get d "patientId") then
         run.1 = Raise (HTTPException 403
                          "Not authorized to update this appointment.")
       else
         run.1 = Raise (HTTPException 500 "Appointment data incomplete.")
   end).
Proof.
  cbv zeta. intros Hrej.
  destruct (update_appointment_status_rejected E payload w Hrej)
    as (e & w' & Hrun & Ha & Hu & Hl & _).
  rewrite Hrun. simpl.
  split; [exists e; reflexivity|]. repeat (split; [assumption|]).
  intros Hinit Hdb Hid Hread.
  unfold update_appointment_status in Hrun. rewrite Hinit, Hdb, Hid in Hrun.
  cbn [negb orb] in Hrun.
  unfold try_except, update_appointment_status_body in Hrun.
  unfold mbind, M_bind, bind at 1 in Hrun.
  rewrite appointments_get_run, Hread in Hrun.
  destruct (appointments w !! appointment_id payload) as [d|].
  - destruct (truthy (dict_get d "patientId")); simpl in Hrun.
    + destruct Hrej as [Hrej|Hrej]; [discriminate|].
      rewrite Hrej in Hrun. inversion Hrun. reflexivity.
    + inversion Hrun. reflexivity.
  - inversion Hrun. reflexivity.
Qed.

Lemma rejected_request_writes_nothing_witness :
  (update_appointment_status E_up (mkPayload "A" CONFIRMED (Some "X") None)
                             w_demo).1
    = Raise (HTTPException 403 "Not authorized to update this appointment.")
  /\
  appointments
    (update_appointment_status E_up (mkPayload "A" CONFIRMED (Some "X") None)
                               w_demo).2
    = appointments w_demo.
Proof.
  destruct (rejected_request_writes_nothing E_up
              (mkPayload "A" CONFIRMED (Some "X") None) w_demo)
    as (_ & Ha & _ & _ & Herr).
  - right. reflexivity.
  - split; [|exact Ha]. apply (Herr eq_refl eq_refl eq_refl eq_refl).
Defined.

(** ** The scenarios of the specification, run on the small deployment *)

(** One token delivers, one is unregistered: a partial success, and the
    unregistered token is gone from the stored list afterwards. *)
Example scenario_partial_success :
  let run := send_notifications_to_user E_up "R" "doctor" "New request"
                                        "Please review" None false w_demo in
  run.1 = Ok (Summary "partial_success" 1 1 2 1) /\
  stored_list run.2 "R" = Some [PStr "t1"; PStr ""; PInt 3] /\
  prune_log run.2 = [("R", "t2")].
Proof. vm_compute. repeat split. Qed.

(** The store stops answering after the tokens were read: the prune fails,
    the fan-out still returns its summary. *)
Example scenario_prune_fails :
  let run := send_notifications_to_user E_store_lost "F" "patient" "Hello"
                                        "World" None false w_demo in
  run.1 = Ok (Summary "failure" 0 3 3 0) /\
  stored_list run.2 "F" = Some [PStr "t2"; PStr "t3"; PStr "t4"] /\
  prune_log run.2 = [("F", "t2")].
Proof. vm_compute. repeat split. Qed.

(** Every send to the patient fails: the status is written all the same and
    the answer is [success] with the failure inside. *)
Example scenario_notification_fails :
  let run := update_appointment_status
               E_up (mkPayload "A" CONFIRMED (Some "D") None) w_demo in
  run.1 = Ok (mkWorkflowResult "success"
                               "Appointment status updated to confirmed"
                               (Summary "failure" 0 3 3 1)) /\
  (appointments run.2 !! "A") ≫= (.!! "status") = Some (PStr "confirmed").
Proof. vm_compute. repeat split. Qed.

(** A record without [patientId] is refused before the doctor is looked at,
    with the error of the incomplete record. *)
Example scenario_incomplete_before_unauthorized :
  (update_appointment_status
     E_up (mkPayload "B" CONFIRMED (Some "X") None) w_demo).1
  = Raise (HTTPException 500 "Appointment data incomplete.").
Proof. reflexivity. Qed.

(** An empty [doctor_id] counts as none given: the doctor is not checked. *)
Example scenario_empty_doctor_id :
  doctor_mismatch (Some "") (PStr "D") = false /\
  doctor_mismatch (Some "X") (PStr "D") = true /\
  doctor_mismatch None (PStr "D") = false.
Proof. repeat split. Qed.

Example capitalize_status_name :
  capitalize (status_name DECLINED_DOCTOR) = "Declined_doctor".
Proof. reflexivity. Qed.

(** * Further properties of the code *)

(** ** Resolving tokens *)

(** X1.  Whatever the document holds and whatever the store does, every
    token [get_user_fcm_tokens] returns is a non-empty string. *)
Theorem resolved_tokens_nonempty (E : Env) user_id user_type w :
  Forall (fun t => t <> "") (get_user_fcm_tokens E user_id user_type w).1.
Proof.
  rewrite get_user_fcm_tokens_run.
  repeat case_match; simpl; try constructor; try constructor.
  - apply str_truthy_nonempty. assumption.
  - apply valid_tokens_nonempty.
Qed.

(** X2.  Resolving tokens only reads: users, appointments and both logs are
    as before, and the store is called at most once. *)
Theorem resolve_only_reads (E : Env) user_id user_type w :
  let w' := (get_user_fcm_tokens E user_id user_type w).2 in
  users w' = users w /\ appointments w' = appointments w /\
  fcm_log w' = fcm_log w /\ prune_log w' = prune_log w /\
  store_ops w <= store_ops w' <= S (store_ops w).
Proof.
  cbv zeta. rewrite get_user_fcm_tokens_run.
  repeat case_match; simpl; repeat split; lia.
Qed.

(** X3.  Without a [db] client the function answers the empty list without
    calling the store; when the read raises it answers the empty list as
    well. *)
Theorem resolve_without_store (E : Env) user_id user_type w :
  db E = false \/ store_fault E (store_ops w) <> None ->
  (get_user_fcm_tokens E user_id user_type w).1 = [] /\
  (db E = false -> get_user_fcm_tokens E user_id user_type w = ([], w)).
Proof.
  intros H. rewrite get_user_fcm_tokens_run.
  destruct (db E); simpl.
  - destruct H as [H|H]; [discriminate|].
    destruct (store_fault E (store_ops w)); [|congruence].
    split; [reflexivity | discriminate].
  - split; reflexivity.
Qed.

Lemma resolve_without_store_witness :
  (get_user_fcm_tokens E_down "R" "doctor" w_demo).1 = [] /\
  (get_user_fcm_tokens E_store_down "R" "doctor" w_demo).1 = [].
Proof.
  split.
  - apply (resolve_without_store E_down "R" "doctor" w_demo).
    left. reflexivity.
  - apply (resolve_without_store E_store_down "R" "doctor" w_demo).
    right. discriminate.
Defined.

Lemma valid_tokens_strings (l : list string) :
  Forall (fun t => t <> "") l -> valid_tokens (map PStr l) = l.
Proof.
  induction 1 as [|t l Ht _ IH]; simpl; [reflexivity|].
  apply str_truthy_nonempty in Ht. rewrite Ht, IH. reflexivity.
Qed.

(** X4.  A stored list of non-empty strings is resolved to exactly that
    list: same order, duplicates included. *)
Theorem stored_strings_resolve_unchanged
    (E : Env) user_id user_type w d (l : list string) :
  db E = true ->
  store_fault E (store_ops w) = None ->
  users w !! user_id = Some d ->
  d !! "fcmTokens" = Some (PList (map PStr l)) ->
  Forall (fun t => t <> "") l ->
  (get_user_fcm_tokens E user_id user_type w).1 = l.
Proof.
  intros Hdb Hok Hd Hl Hne. rewrite get_user_fcm_tokens_run.
  unfold dict_get. rewrite Hdb, Hok, Hd, Hl. simpl.
  apply valid_tokens_strings. exact Hne.
Qed.

Lemma stored_strings_resolve_unchanged_witness :
  (get_user_fcm_tokens E_up "F" "patient" w_demo).1 = ["t2"; "t3"; "t4"].
Proof.
  apply (stored_strings_resolve_unchanged E_up "F" "patient" w_demo
           {[ "fcmTokens" := PList [PStr "t2"; PStr "t3"; PStr "t4"] ]}
           ["t2"; "t3"; "t4"]); try reflexivity.
  repeat constructor; discriminate.
Defined.

(** ** Pruning a token *)

Lemma holds_token_count (w : World) user_id token :
  holds_token w user_id token = true <-> 0 < stored_count w user_id token.
Proof.
  unfold holds_token, stored_count.
  destruct (users w !! user_id) as [d|]; [|split; [discriminate | lia]].
  destruct (dict_get d "fcmTokens") as [| | | s | | l];
    try (split; [discriminate | lia]).
  - destruct (s =? token); split; try discriminate; try lia; reflexivity.
  - apply py_in_count.
Qed.

(** A token the store does not hold is not pruned. *)
Lemma remove_unregistered_token_absent (E : Env) user_id token w :
  holds_token w user_id token = false ->
  (remove_unregistered_token E user_id token w).1 = false.
Proof.
  unfold holds_token. rewrite remove_unregistered_token_run. cbv zeta.
  intros H. repeat case_match; simplify_eq; reflexivity.
Qed.

(** X5.  The flag [remove_unregistered_token] returns tells whether it
    wrote: it is [True] exactly when the users collection is no longer what
    it was. *)
Theorem prune_flag_reports_write (E : Env) user_id token w :
  (remove_unregistered_token E user_id token w).1 = true <->
  users (remove_unregistered_token E user_id token w).2 <> users w.
Proof.
  destruct (remove_unregistered_token E user_id token w) as [b w'] eqn:Hrm.
  simpl. destruct b.
  - split; [intros _ | reflexivity].
    apply remove_unregistered_token_true in Hrm.
    destruct Hrm as (d & Hd & [(l & Hv & Hin & Hu) | (Hv & Hu)]);
      rewrite Hu; intros Heq;
      apply (f_equal (fun m => m !! user_id)) in Heq;
      rewrite lookup_insert_eq, Hd in Heq; inversion Heq as [Hdoc];
      apply (f_equal (fun m => m !! "fcmTokens")) in Hdoc.
    + rewrite lookup_insert_eq, Hv in Hdoc. inversion Hdoc as [Hl].
      apply py_remove_length in Hin. rewrite Hl in Hin. lia.
    + rewrite lookup_delete_eq, Hv in Hdoc. discriminate.
  - apply remove_unregistered_token_false in Hrm.
    split; [discriminate | intros H; contradiction].
Qed.

(** X6.  Pruning touches one field of one document: every other user, every
    other field of the user's document, the appointments and the provider
    log are as before, and no document is created. *)
Theorem prune_touches_one_field (E : Env) user_id token w :
  let w' := (remove_unregistered_token E user_id token w).2 in
  (forall uid, uid <> user_id -> users w' !! uid = users w !! uid) /\
  (forall field, field <> "fcmTokens" ->
     (users w' !! user_id) ≫= (.!! field)
     = (users w !! user_id) ≫= (.!! field)) /\
  (users w !! user_id = None -> users w' !! user_id = None) /\
  appointments w' = appointments w /\
  fcm_log w' = fcm_log w.
Proof.
  cbv zeta.
  destruct (remove_unregistered_token E user_id token w) as [b w'] eqn:Hrm.
  simpl. pose proof (remove_unregistered_token_frame E _ _ _ _ _ Hrm)
    as (Ha & Hl & _).
  destruct b.
  - apply remove_unregistered_token_true in Hrm.
    destruct Hrm as (d & Hd & [(l & Hv & Hin & Hu) | (Hv & Hu)]);
      rewrite Hu; repeat split; auto.
    + intros uid Hne. apply lookup_insert_ne. congruence.
    + intros field Hne. rewrite lookup_insert_eq, Hd. simpl.
      apply lookup_insert_ne. congruence.
    + congruence.
    + intros uid Hne. apply lookup_insert_ne. congruence.
    + intros field Hne. rewrite lookup_insert_eq, Hd. simpl.
      apply lookup_delete_ne. congruence.
    + congruence.
  - apply remove_unregistered_token_false in Hrm. rewrite Hrm.
    repeat split; auto.
Qed.

(** The stored occurrences after a successful prune. *)
Lemma remove_unregistered_token_count (E : Env) user_id token w w' :
  remove_unregistered_token E user_id token w = (true, w') ->
  S (stored_count w' user_id token) = stored_count w user_id token /\
  (forall s, s <> token ->
     stored_count w' user_id s = stored_count w user_id s).
Proof.
  intros Hrm. apply remove_unregistered_token_true in Hrm.
  destruct Hrm as (d & Hd & [(l & Hv & Hin & Hu) | (Hv & Hu)]);
    unfold stored_count, dict_get; rewrite Hu, Hd, Hv, lookup_insert_eq.
  - rewrite lookup_insert_eq. split.
    + apply count_py_remove_same. exact Hin.
    + intros s Hne. apply count_py_remove_other. exact Hne.
  - rewrite lookup_delete_eq, String.eqb_refl. split; [reflexivity|].
    intros s Hne. destruct (String.eqb_spec token s); congruence.
Qed.

(** X7.  A successful prune removes one stored occurrence of the token and
    no occurrence of any other token; the token is still stored afterwards
    exactly when it was stored more than once. *)
Theorem prune_removes_one_occurrence (E : Env) user_id token w :
  (remove_unregistered_token E user_id token w).1 = true ->
  let w' := (remove_unregistered_token E user_id token w).2 in
  S (stored_count w' user_id token) = stored_count w user_id token /\
  (forall s, s <> token ->
     stored_count w' user_id s = stored_count w user_id s) /\
  (holds_token w' user_id token = true <->
   2 <= stored_count w user_id token).
Proof.
  destruct (remove_unregistered_token E user_id token w) as [b w'] eqn:Hrm.
  simpl. intros ->.
  apply remove_unregistered_token_count in Hrm. destruct Hrm as [Hsame Hother].
  split; [exact Hsame|]. split; [exact Hother|].
  rewrite holds_token_count. lia.
Qed.

Lemma prune_removes_one_occurrence_witness :
  holds_token (remove_unregistered_token E_up "Dup" "a" w_demo).2 "Dup" "a"
    = true /\
  holds_token (remove_unregistered_token E_up "Dup" "b" w_demo).2 "Dup" "b"
    = false.
Proof.
  split.
  - apply (prune_removes_one_occurrence E_up "Dup" "a" w_demo eq_refl).
    vm_compute. lia.
  - destruct (prune_removes_one_occurrence E_up "Dup" "b" w_demo eq_refl)
      as (_ & _ & Hiff).
    destruct (holds_token (remove_unregistered_token E_up "Dup" "b" w_demo).2
                          "Dup" "b"); [|reflexivity].
    assert (H : 2 <= stored_count w_demo "Dup" "b") by (apply Hiff; reflexivity).
    vm_compute in H. lia.
Defined.

(** X9.  After a successful prune of a token that was stored once, a second
    prune of the same token answers [False] and writes nothing. *)
Theorem second_prune_is_refused (E : Env) user_id token w :
  stored_count w user_id token = 1 ->
  (remove_unregistered_token E user_id token w).1 = true ->
  let w' := (remove_unregistered_token E user_id token w).2 in
  (remove_unregistered_token E user_id token w').1 = false /\
  users (remove_unregistered_token E user_id token w').2 = users w'.
Proof.
  intros Hone Htrue. cbv zeta.
  destruct (remove_unregistered_token E user_id token w) as [b w'] eqn:Hrm.
  simpl in *. subst b.
  apply remove_unregistered_token_count in Hrm. destruct Hrm as [Hsame _].
  assert (Habs : holds_token w' user_id token = false).
  { destruct (holds_token w' user_id token) eqn:Hh; [|reflexivity].
    apply holds_token_count in Hh. lia. }
  pose proof (remove_unregistered_token_absent E user_id token w' Habs) as Hf.
  split; [exact Hf|].
  destruct (remove_unregistered_token E user_id token w') as [b w''] eqn:Hrm2.
  simpl in *. subst b.
  eapply remove_unregistered_token_false. exact Hrm2.
Qed.

Lemma second_prune_is_refused_witness :
  (remove_unregistered_token E_up "R" "t2"
     (remove_unregistered_token E_up "R" "t2" w_demo).2).1 = false.
Proof.
  apply (second_prune_is_refused E_up "R" "t2" w_demo); reflexivity.
Defined.

Lemma remove_first_absent (t : string) (l : list string) :
  t ∉ l -> remove_first t l = l.
Proof.
  induction l as [|s l IH]; simpl; [reflexivity|].
  rewrite not_elem_of_cons. intros [Hne Hl].
  destruct (String.eqb_spec t s); [contradiction|].
  rewrite IH by exact Hl. reflexivity.
Qed.

(** Removing from the stored list and then filtering is filtering and then
    removing. *)
Lemma valid_tokens_py_remove (t : string) (l : list PyVal) :
  valid_tokens (py_remove t l) = remove_first t (valid_tokens l).
Proof.
  induction l as [|v l IH]; simpl; [reflexivity|].
  destruct v as [| b | z | s | ts | l0]; simpl; try exact IH.
  destruct (String.eqb_spec t s) as [->|Hne].
  - destruct (str_truthy s) eqn:Hs; simpl.
    + rewrite String.eqb_refl. reflexivity.
    + symmetry. apply remove_first_absent. intros Hin.
      apply valid_tokens_elem in Hin. destruct Hin as [_ Hin].
      apply str_truthy_nonempty in Hin. congruence.
  - simpl. destruct (str_truthy s); simpl; [|exact IH].
    destruct (String.eqb_spec t s); [contradiction|].
    rewrite IH. reflexivity.
Qed.

(** X8.  With the store answering, pruning a token that the stored list
    holds succeeds, and the tokens resolved afterwards are those resolved
    before without the first occurrence of that token. *)
Theorem prune_then_resolve (E : Env) user_id user_type token w d l :
  db E = true ->
  store_answers_from E (store_ops w) ->
  users w !! user_id = Some d ->
  d !! "fcmTokens" = Some (PList l) ->
  py_in token l = true ->
  (remove_unregistered_token E user_id token w).1 = true /\
  (get_user_fcm_tokens E user_id user_type
     (remove_unregistered_token E user_id token w).2).1
  = remove_first token (get_user_fcm_tokens E user_id user_type w).1.
Proof.
  intros Hdb Hok Hd Hl Hin.
  rewrite remove_unregistered_token_run. cbv zeta.
  unfold dict_get. rewrite Hdb, Hd, Hl, Hin. simpl.
  rewrite (Hok (store_ops w)), (Hok (S (store_ops w))) by lia.
  split; [reflexivity|].
  rewrite !get_user_fcm_tokens_run. unfold dict_get. rewrite Hdb. simpl.
  rewrite (Hok (store_ops w)), (Hok (S (S (store_ops w)))) by lia.
  rewrite lookup_insert_eq, lookup_insert_eq, Hd, Hl. simpl.
  apply valid_tokens_py_remove.
Qed.

Lemma prune_then_resolve_witness :
  (get_user_fcm_tokens E_up "Dup" "patient"
     (remove_unregistered_token E_up "Dup" "a" w_demo).2).1
  = remove_first "a" (get_user_fcm_tokens E_up "Dup" "patient" w_demo).1.
Proof.
  apply (prune_then_resolve E_up "Dup" "patient" "a" w_demo
           {[ "fcmTokens" := PList [PStr "a"; PStr "a"; PStr ""; PStr "b"] ]}
           [PStr "a"; PStr "a"; PStr ""; PStr "b"]); try reflexivity.
  intros k _. reflexivity.
Defined.

(** ** More on the fan-out *)

Lemma invalid_targets_le_failed (E : Env) mk tokens : forall log,
  length (invalid_targets E mk log tokens)
  <= count is_failed (outcomes E mk log tokens).
Proof.
  induction tokens as [|t ts IH]; intros log; simpl; [lia|].
  specialize (IH (log ++ [mk t])%list).
  destruct (fcm_send E log (mk t)); simpl; lia.
Qed.

Lemma send_loop_removed (E : Env) user_id mk tokens : forall c w c' w',
  send_loop E user_id mk tokens c w = (c', w') ->
  c_removed c <= c_removed c'
  <= c_removed c + length (invalid_targets E mk (fcm_log w) tokens).
Proof.
  induction tokens as [|t ts IH]; intros c w c' w' H; simpl in *.
  - inversion H; subst. lia.
  - destruct (send_one E user_id mk t c w) as [c1 w1] eqn:H1.
    pose proof (send_one_spec E _ _ _ _ _ _ _ H1) as (Hl & _).
    apply IH in H. rewrite Hl in H. unfold send_one in H1.
    destruct (fcm_send E (fcm_log w) (mk t)); simpl;
      try (inversion H1; subst; simpl in *; lia).
    destruct (remove_unregistered_token E user_id t (log_send (mk t) w))
      as [[|] w2]; inversion H1; subst; simpl in *; lia.
Qed.

(** X11.  In every summary, [tokens_removed] is at most the number of sends
    the provider answered with [UnregisteredError], which is at most
    [failure_count]. *)
Theorem removed_at_most_invalid_at_most_failed
    (E : Env) user_id user_type title body data hp w st s f n rm w' :
  send_notifications_to_user E user_id user_type title body data hp w
    = (Ok (Summary st s f n rm), w') ->
  let invalid :=
    invalid_targets E (make_message title body data hp) (fcm_log w)
                    (tokens_for E user_id user_type w).1 in
  rm <= length invalid /\ length invalid <= f.
Proof.
  intros Hrun. cbv zeta.
  destruct (firebase_initialized E) eqn:Hinit.
  2:{ unfold send_notifications_to_user in Hrun. rewrite Hinit in Hrun.
      discriminate. }
  rewrite send_notifications_to_user_run in Hrun by assumption.
  destruct (tokens_for E user_id user_type w) as [tokens w1] eqn:Htok.
  apply tokens_for_frame in Htok. destruct Htok as (_ & _ & Hlog & _).
  destruct tokens as [|t ts]; [discriminate|].
  destruct (send_loop E user_id (make_message title body data hp) (t :: ts)
              (mkCounters 0 0 0) w1) as [c w2] eqn:Hloop.
  pose proof (send_loop_removed E _ _ _ _ _ _ _ Hloop) as Hrm.
  apply send_loop_spec in Hloop. destruct Hloop as (_ & _ & _ & Hf & _).
  rewrite Hlog in *. inversion Hrun; subst. simpl fst. simpl c_removed in Hrm.
  simpl c_failure in Hf. rewrite Hf.
  pose proof (invalid_targets_le_failed E (make_message title body data hp)
                (t :: ts) (fcm_log w)).
  lia.
Qed.

Lemma removed_at_most_invalid_at_most_failed_witness :
  let invalid :=
    invalid_targets E_up (make_message "Hello" "World" None false)
                    (fcm_log w_demo) (tokens_for E_up "F" "patient" w_demo).1 in
  1 <= length invalid /\ length invalid <= 3.
Proof.
  apply (removed_at_most_invalid_at_most_failed E_up "F" "patient" "Hello"
           "World" None false w_demo "failure" 0 3 3 1
           (send_notifications_to_user E_up "F" "patient" "Hello" "World"
                                       None false w_demo).2).
  reflexivity.
Defined.

Lemma count_valid_tokens (t : string) (l : list PyVal) :
  count (String.eqb t) (valid_tokens l) <= count (str_eq t) l.
Proof.
  induction l as [|v l IH]; simpl; [lia|].
  destruct v as [| | | s | |]; simpl; try lia.
  destruct (str_truthy s); simpl; lia.
Qed.

(** No token is resolved more often than it is stored. *)
Lemma resolved_count_le_stored (E : Env) user_id user_type w t :
  count (String.eqb t) (get_user_fcm_tokens E user_id user_type w).1
  <= stored_count w user_id t.
Proof.
  rewrite get_user_fcm_tokens_run. unfold stored_count.
  destruct (negb (db E)); simpl; [lia|].
  destruct (store_fault E (store_ops w)); simpl; [lia|].
  destruct (users w !! user_id) as [d|]; simpl; [|lia].
  destruct (dict_get d "fcmTokens") as [| | | s | | l]; simpl; try lia.
  - destruct (str_truthy s); simpl; [|lia].
    rewrite (String.eqb_sym s t). destruct (t =? s); lia.
  - apply count_valid_tokens.
Qed.

Lemma remove_unregistered_token_succeeds (E : Env) user_id token w :
  db E = true ->
  store_fault E (store_ops w) = None ->
  store_fault E (S (store_ops w)) = None ->
  holds_token w user_id token = true ->
  exists w',
    remove_unregistered_token E user_id token w = (true, w') /\
    store_ops w' = S (S (store_ops w)).
Proof.
  intros Hdb H0 H1 Hh. unfold holds_token in Hh.
  rewrite remove_unregistered_token_run. cbv zeta. rewrite Hdb, H0, H1. simpl.
  destruct (users w !! user_id) as [d|]; [|discriminate].
  destruct (dict_get d "fcmTokens") as [| | | s | | l]; try discriminate;
    rewrite Hh; eexists; split; reflexivity.
Qed.

Lemma stored_count_same_users (w w' : World) user_id t :
  users w' = users w -> stored_count w' user_id t = stored_count w user_id t.
Proof. unfold stored_count. intros ->. reflexivity. Qed.

(** The loop over a store that answers: every unregistered token is
    pruned. *)
Lemma send_loop_reliable (E : Env) user_id mk :
  db E = true ->
  forall tokens c w c' w',
    store_answers_from E (store_ops w) ->
    (forall t, count (String.eqb t) tokens <= stored_count w user_id t) ->
    send_loop E user_id mk tokens c w = (c', w') ->
    c_removed c'
      = c_removed c + length (invalid_targets E mk (fcm_log w) tokens) /\
    (forall t,
       stored_count w' user_id t
         + count (String.eqb t) (invalid_targets E mk (fcm_log w) tokens)
       = stored_count w user_id t).
Proof.
  intros Hdb. induction tokens as [|t0 ts IH];
    intros c w c' w' Hok Hcnt H; simpl in *.
  - inversion H; subst. split; [lia | intros; lia].
  - destruct (send_one E user_id mk t0 c w) as [c1 w1] eqn:H1.
    unfold send_one in H1.
    assert (Hrest : forall t, count (String.eqb t) ts
                              <= stored_count w user_id t).
    { intros t. specialize (Hcnt t). lia. }
    destruct (fcm_send E (fcm_log w) (mk t0)) eqn:Hout;
      try (inversion H1; subst c1 w1; clear H1;
           apply IH in H; [exact H | exact Hok | exact Hrest]).
    destruct (remove_unregistered_token_succeeds E user_id t0
                (log_send (mk t0) w) Hdb) as (w2 & Hrm & Hops).
    { apply Hok. simpl. lia. }
    { apply Hok. simpl. lia. }
    { apply holds_token_count.
      change (0 < stored_count w user_id t0).
      specialize (Hcnt t0). rewrite String.eqb_refl in Hcnt. lia. }
    rewrite Hrm in H1. inversion H1; subst c1 w1; clear H1.
    pose proof (remove_unregistered_token_frame E _ _ _ _ _ Hrm)
      as (_ & Hlog & _).
    apply remove_unregistered_token_count in Hrm.
    destruct Hrm as [Hsame Hother].
    change (S (stored_count w2 user_id t0) = stored_count w user_id t0)
      in Hsame.
    assert (Hother' : forall s, s <> t0 ->
              stored_count w2 user_id s = stored_count w user_id s).
    { intros s Hne. rewrite Hother by exact Hne. reflexivity. }
    apply IH in H.
    + destruct H as [Hrm' Hst]. rewrite Hlog in Hrm', Hst. simpl in Hrm', Hst.
      split; [simpl; lia|].
      intros t. specialize (Hst t). simpl.
      destruct (String.eqb_spec t t0) as [Heq|Hne].
      * rewrite Heq in *. lia.
      * rewrite <- (Hother' t Hne). lia.
    + intros k Hk. apply Hok. simpl in Hops. lia.
    + intros t. specialize (Hcnt t).
      destruct (String.eqb_spec t t0) as [Heq|Hne].
      * rewrite Heq in *. lia.
      * rewrite (Hother' t Hne). lia.
Qed.

(** X10.  With a [db] client and a store that answers every call, the
    fan-out removes every token the provider reported as unregistered:
    [tokens_removed] is the number of such sends, and each of them took one
    stored occurrence of its token away. *)
Theorem reliable_store_prunes_every_invalid_token
    (E : Env) user_id user_type title body data hp w st s f n rm w' :
  db E = true ->
  store_answers_from E (store_ops w) ->
  send_notifications_to_user E user_id user_type title body data hp w
    = (Ok (Summary st s f n rm), w') ->
  let invalid :=
    invalid_targets E (make_message title body data hp) (fcm_log w)
                    (tokens_for E user_id user_type w).1 in
  rm = length invalid /\
  (forall t,
     stored_count w' user_id t + count (String.eqb t) invalid
     = stored_count w user_id t).
Proof.
  intros Hdb Hok Hrun. cbv zeta.
  destruct (firebase_initialized E) eqn:Hinit.
  2:{ unfold send_notifications_to_user in Hrun. rewrite Hinit in Hrun.
      discriminate. }
  rewrite send_notifications_to_user_run in Hrun by assumption.
  pose proof (fun t => resolved_count_le_stored E user_id user_type w t)
    as Hcnt.
  pose proof (resolve_only_reads E user_id user_type w) as Hro.
  cbv zeta in Hro. rewrite <- tokens_for_get in Hcnt, Hro.
  destruct (tokens_for E user_id user_type w) as [tokens w1] eqn:Htok.
  simpl in Hcnt, Hro. destruct Hro as (Hu & _ & Hlog & _ & Hops).
  destruct tokens as [|t0 ts]; [discriminate|].
  destruct (send_loop E user_id (make_message title body data hp) (t0 :: ts)
              (mkCounters 0 0 0) w1) as [c w2] eqn:Hloop.
  apply (send_loop_reliable E user_id _ Hdb) in Hloop.
  - destruct Hloop as [Hrm Hst]. rewrite Hlog in Hrm, Hst.
    inversion Hrun; subst. simpl fst. split; [exact Hrm|].
    intros t. rewrite (Hst t). apply stored_count_same_users. exact Hu.
  - intros k Hk. apply Hok. lia.
  - intros t. rewrite (stored_count_same_users w) by exact Hu. apply Hcnt.
Qed.

Lemma reliable_store_prunes_every_invalid_token_witness :
  let invalid :=
    invalid_targets E_up (make_message "Hello" "World" None false)
                    (fcm_log w_demo) (tokens_for E_up "R" "doctor" w_demo).1 in
  1 = length invalid /\
  (forall t,
     stored_count
       (send_notifications_to_user E_up "R" "doctor" "Hello" "World" None
                                   false w_demo).2 "R" t
     + count (String.eqb t) invalid
     = stored_count w_demo "R" t).
Proof.
  apply (reliable_store_prunes_every_invalid_token E_up "R" "doctor" "Hello"
           "World" None false w_demo "partial_success" 1 1 2 1
           (send_notifications_to_user E_up "R" "doctor" "Hello" "World" None
                                       false w_demo).2);
    try reflexivity.
  intros k _. reflexivity.
Defined.

Lemma only_tokens_changed_refl user_id w w' :
  users w' = users w -> appointments w' = appointments w ->
  only_tokens_changed user_id w w'.
Proof. intros Hu Ha. unfold only_tokens_changed. rewrite Hu. auto. Qed.

Lemma only_tokens_changed_trans user_id w1 w2 w3 :
  only_tokens_changed user_id w1 w2 -> only_tokens_changed user_id w2 w3 ->
  only_tokens_changed user_id w1 w3.
Proof.
  intros (Ho & Hf & Hn & Ha) (Ho' & Hf' & Hn' & Ha').
  repeat split.
  - intros uid Hne. rewrite Ho', Ho by assumption. reflexivity.
  - intros field Hne. rewrite Hf', Hf by assumption. reflexivity.
  - auto.
  - congruence.
Qed.

Lemma remove_unregistered_token_scope (E : Env) user_id token w :
  only_tokens_changed user_id w
    (remove_unregistered_token E user_id token w).2.
Proof.
  destruct (remove_unregistered_token E user_id token w) as [b w'] eqn:Hrm.
  simpl. pose proof (remove_unregistered_token_frame E _ _ _ _ _ Hrm)
    as (Ha & _).
  destruct b.
  - apply remove_unregistered_token_true in Hrm.
    destruct Hrm as (d & Hd & [(l & Hv & Hin & Hu) | (Hv & Hu)]);
      unfold only_tokens_changed; rewrite Hu; repeat split; auto.
    + intros uid Hne. apply lookup_insert_ne. congruence.
    + intros field Hne. rewrite lookup_insert_eq, Hd. simpl.
      apply lookup_insert_ne. congruence.
    + congruence.
    + intros uid Hne. apply lookup_insert_ne. congruence.
    + intros field Hne. rewrite lookup_insert_eq, Hd. simpl.
      apply lookup_delete_ne. congruence.
    + congruence.
  - apply remove_unregistered_token_false in Hrm.
    apply only_tokens_changed_refl; assumption.
Qed.

Lemma send_loop_scope (E : Env) user_id mk tokens : forall c w,
  only_tokens_changed user_id w (send_loop E user_id mk tokens c w).2.
Proof.
  induction tokens as [|t ts IH]; intros c w; simpl.
  - apply only_tokens_changed_refl; reflexivity.
  - destruct (send_one E user_id mk t c w) as [c1 w1] eqn:H1.
    eapply only_tokens_changed_trans; [|apply IH].
    unfold send_one in H1.
    destruct (fcm_send E (fcm_log w) (mk t));
      try (inversion H1; subst; apply only_tokens_changed_refl; reflexivity).
    pose proof (remove_unregistered_token_scope E user_id t
                  (log_send (mk t) w)) as Hsc.
    destruct (remove_unregistered_token E user_id t (log_send (mk t) w))
      as [[|] w2]; inversion H1; subst; exact Hsc.
Qed.

(** X13.  A fan-out for one user changes nothing but the [fcmTokens] field
    of that user's document: every other user document, every other field
    of the user's own document and all appointments are as before, and no
    document is created. *)
Theorem fanout_changes_only_tokens
    (E : Env) user_id user_type title body data hp w :
  only_tokens_changed user_id w
    (send_notifications_to_user E user_id user_type title body data hp w).2.
Proof.
  destruct (firebase_initialized E) eqn:Hinit.
  2:{ unfold send_notifications_to_user. rewrite Hinit.
      apply only_tokens_changed_refl; reflexivity. }
  rewrite send_notifications_to_user_run by assumption.
  destruct (tokens_for E user_id user_type w) as [tokens w1] eqn:Htok.
  apply tokens_for_frame in Htok. destruct Htok as (Hu & Ha & _).
  destruct tokens as [|t ts];
    [apply only_tokens_changed_refl; assumption|].
  pose proof (send_loop_scope E user_id (make_message title body data hp)
                (t :: ts) (mkCounters 0 0 0) w1) as Hsc.
  destruct (send_loop E user_id (make_message title body data hp) (t :: ts)
              (mkCounters 0 0 0) w1) as [c w2].
  eapply only_tokens_changed_trans; [|exact Hsc].
  apply only_tokens_changed_refl; assumption.
Qed.

(** The messages of a fan-out, for any environment. *)
Lemma send_notifications_to_user_log
    (E : Env) user_id user_type title body data hp w :
  exists tokens,
    fcm_log (send_notifications_to_user E user_id user_type title body data
                                        hp w).2
    = (fcm_log w ++ map (make_message title body data hp) tokens)%list.
Proof.
  destruct (firebase_initialized E) eqn:Hinit.
  2:{ unfold send_notifications_to_user. rewrite Hinit. exists [].
      simpl. rewrite app_nil_r. reflexivity. }
  rewrite send_notifications_to_user_run by assumption.
  destruct (tokens_for E user_id user_type w) as [tokens w1] eqn:Htok.
  apply tokens_for_frame in Htok. destruct Htok as (_ & _ & Hl & _).
  destruct tokens as [|t ts].
  - exists []. simpl. rewrite app_nil_r. exact Hl.
  - destruct (send_loop E user_id (make_message title body data hp) (t :: ts)
                (mkCounters 0 0 0) w1) as [c w2] eqn:Hloop.
    apply send_loop_spec in Hloop. destruct Hloop as (Hl' & _).
    exists (t :: ts). simpl fst. simpl snd. rewrite Hl', Hl. reflexivity.
Qed.

Lemma make_message_carries title body data hp tokens :
  Forall (carries title body data hp)
         (map (make_message title body data hp) tokens).
Proof.
  apply Forall_forall. intros m Hm. apply list_elem_of_fmap in Hm.
  destruct Hm as (t & -> & _). unfold carries, make_message. simpl.
  repeat split; destruct hp; split; reflexivity.
Qed.

(** X14.  All messages of one fan-out carry the same title, body and data,
    and they carry the Android and APNs priority hints exactly when
    [high_priority] is set. *)
Theorem fanout_messages_are_uniform
    (E : Env) user_id user_type title body data hp w :
  exists new,
    fcm_log (send_notifications_to_user E user_id user_type title body data
                                        hp w).2
    = (fcm_log w ++ new)%list /\
    Forall (carries title body data hp) new.
Proof.
  destruct (send_notifications_to_user_log E user_id user_type title body
              data hp w) as (tokens & Hlog).
  eexists. split; [exact Hlog | apply make_message_carries].
Qed.

(** ** The direct endpoint *)

(** [send_fcm_notification_direct] case by case. *)
Lemma send_fcm_notification_direct_run
    (E : Env) init_error exn_text payload w :
  send_fcm_notification_direct E init_error exn_text payload w =
  if negb (firebase_initialized E) then
    (Raise (HTTPException 503 ("Firebase Admin SDK not initialized: "
                                 +:+ init_error)), w)
  else
    let m := direct_message payload in
    (match fcm_send E (fcm_log w) m with
     | Sent response => Ok (mkDirectResult "success" response)
     | UnregisteredError =>
         Raise (HTTPException 404 ("Device token is unregistered or invalid: "
                                     +:+ exn_text UnregisteredError))
     | InvalidArgumentError | FirebaseError | OtherException =>
         Raise (AttributeError no_invalid_argument_error)
     end, log_send m w).
Proof.
  unfold send_fcm_notification_direct.
  destruct (firebase_initialized E); simpl; [|reflexivity].
  unfold_monad. simpl.
  destruct (fcm_send E (fcm_log w) (direct_message payload)); reflexivity.
Qed.

(** X16.  The direct endpoint hands at most one message to the provider
    (exactly one once the module is initialised) and never touches the
    store: users, appointments, the prune log and the store counter are as
    before, also when the token turns out to be unregistered. *)
Theorem direct_send_never_touches_store
    (E : Env) init_error exn_text payload w :
  let w' := (send_fcm_notification_direct E init_error exn_text payload w).2 in
  users w' = users w /\ appointments w' = appointments w /\
  prune_log w' = prune_log w /\ store_ops w' = store_ops w /\
  fcm_log w' = (fcm_log w ++ if firebase_initialized E
                             then [direct_message payload] else [])%list.
Proof.
  cbv zeta. rewrite send_fcm_notification_direct_run.
  destruct (firebase_initialized E); simpl; rewrite ?app_nil_r; auto.
Qed.

(** X17.  Once the module is initialised, the direct endpoint succeeds
    exactly when the provider delivered and answers 404 exactly for an
    unregistered token.  Every other failure of the provider leaves the
    endpoint as [AttributeError]: the 400 and 500 answers written in its
    handlers are never given, and 404 is the only HTTP error it raises. *)
Theorem direct_send_status_codes
    (E : Env) init_error exn_text payload w :
  firebase_initialized E = true ->
  let r := (send_fcm_notification_direct E init_error exn_text payload w).1 in
  let outcome := fcm_send E (fcm_log w) (direct_message payload) in
  (is_ok r = true <-> is_delivered outcome = true) /\
  (raised_code r = Some 404 <-> outcome = UnregisteredError) /\
  (r = Raise (AttributeError no_invalid_argument_error) <->
   outcome = InvalidArgumentError \/ outcome = FirebaseError \/
   outcome = OtherException) /\
  (forall code, raised_code r = Some code -> code = 404).
Proof.
  intros Hinit. cbv zeta. rewrite send_fcm_notification_direct_run, Hinit.
  simpl.
  destruct (fcm_send E (fcm_log w) (direct_message payload)); simpl;
    repeat split; try discriminate; try tauto;
    try (intros [H|[H|H]]; discriminate);
    try (intros code H; congruence).
Qed.

Lemma direct_send_status_codes_witness :
  raised_code
    (send_fcm_notification_direct E_up "None" (fun _ => "detail")
       (mkTargetted "t2" "Hello" "World" (Some [])) w_demo).1
  = Some 404 /\
  (send_fcm_notification_direct E_up "None" (fun _ => "detail")
     (mkTargetted "t4" "Hello" "World" None) w_demo).1
  = Raise (AttributeError no_invalid_argument_error).
Proof.
  split.
  - apply (direct_send_status_codes E_up "None" (fun _ => "detail")
             (mkTargetted "t2" "Hello" "World" (Some [])) w_demo eq_refl).
    reflexivity.
  - apply (direct_send_status_codes E_up "None" (fun _ => "detail")
             (mkTargetted "t4" "Hello" "World" None) w_demo eq_refl).
    right. left. reflexivity.
Defined.

(** X18.  A direct send and a fan-out to a user whose only token is the
    same one hand the same message to the provider, so the provider answers
    both alike: the direct endpoint succeeds exactly when the fan-out
    reports [success].  (The direct endpoint sends an empty data dictionary
    as no data.) *)
Theorem direct_send_agrees_with_fanout
    (E : Env) init_error exn_text payload user_id user_type w :
  firebase_initialized E = true ->
  (tokens_for E user_id user_type w).1 = [tp_token payload] ->
  let direct := send_fcm_notification_direct E init_error exn_text payload w in
  let fanout := send_notifications_to_user
                  E user_id user_type (tp_title payload) (tp_body payload)
                  (data_or_none (tp_data payload)) false w in
  (is_ok direct.1 = true <->
   exists rm, fanout.1 = Ok (Summary "success" 1 0 1 rm)) /\
  (raised_code direct.1 = Some 404 <->
   prune_log fanout.2
   = (prune_log w ++ [(user_id, tp_token payload)])%list).
Proof.
  intros Hinit Htok. cbv zeta.
  rewrite send_fcm_notification_direct_run, Hinit. simpl.
  rewrite send_notifications_to_user_run by assumption.
  destruct (tokens_for E user_id user_type w) as [tokens w1] eqn:Hfor.
  simpl in Htok. subst tokens.
  apply tokens_for_frame in Hfor. destruct Hfor as (_ & _ & Hl & Hp).
  change (make_message (tp_title payload) (tp_body payload)
            (data_or_none (tp_data payload)) false (tp_token payload))
    with (direct_message payload).
  simpl send_loop. unfold send_one. rewrite Hl.
  change (make_message (tp_title payload) (tp_body payload)
            (data_or_none (tp_data payload)) false (tp_token payload))
    with (direct_message payload).
  destruct (fcm_send E (fcm_log w) (direct_message payload)) eqn:Hout; simpl.
  - split; [split; [intros _; eexists; reflexivity | reflexivity]|].
    rewrite Hp. split; [discriminate|]. intros H.
    apply (f_equal (@length _)) in H. rewrite length_app in H. simpl in H. lia.
  - pose proof (remove_unregistered_token_frame E user_id (tp_token payload)
                  (log_send (direct_message payload) w1)) as Hfr.
    destruct (remove_unregistered_token E user_id (tp_token payload)
                (log_send (direct_message payload) w1)) as [[|] w2];
      specialize (Hfr _ _ eq_refl); destruct Hfr as (_ & _ & Hp2);
      simpl in *; rewrite Hp2, Hp;
      (split; [split; [discriminate | intros [rm H]; discriminate]|]);
      split; reflexivity.
  - rewrite Hp. split; [split; [discriminate | intros [rm H]; discriminate]|].
    split; [discriminate|]. intros H.
    apply (f_equal (@length _)) in H. rewrite length_app in H. simpl in H. lia.
  - rewrite Hp. split; [split; [discriminate | intros [rm H]; discriminate]|].
    split; [discriminate|]. intros H.
    apply (f_equal (@length _)) in H. rewrite length_app in H. simpl in H. lia.
  - rewrite Hp. split; [split; [discriminate | intros [rm H]; discriminate]|].
    split; [discriminate|]. intros H.
    apply (f_equal (@length _)) in H. rewrite length_app in H. simpl in H. lia.
Qed.

Lemma direct_send_agrees_with_fanout_witness :
  exists rm,
    (send_notifications_to_user E_up "U" "patient" "Hello" "World" None false
                                w_single).1
    = Ok (Summary "success" 1 0 1 rm).
Proof.
  apply (direct_send_agrees_with_fanout E_up "None" (fun _ => "detail")
           (mkTargetted "t1" "Hello" "World" (Some [])) "U" "patient" w_single
           eq_refl eq_refl).
  reflexivity.
Defined.

(** ** The doctor endpoint and the health check *)

Lemma send_notifications_to_user_scope
    (E : Env) user_id user_type title body data hp w :
  only_tokens_changed user_id w
    (send_notifications_to_user E user_id user_type title body data hp w).2.
Proof.
  destruct (firebase_initialized E) eqn:Hinit.
  2:{ unfold send_notifications_to_user. rewrite Hinit.
      apply only_tokens_changed_refl; reflexivity. }
  rewrite send_notifications_to_user_run by assumption.
  destruct (tokens_for E user_id user_type w) as [tokens w1] eqn:Htok.
  apply tokens_for_frame in Htok. destruct Htok as (Hu & Ha & _).
  destruct tokens as [|t ts];
    [apply only_tokens_changed_refl; assumption|].
  pose proof (send_loop_scope E user_id (make_message title body data hp)
                (t :: ts) (mkCounters 0 0 0) w1) as Hsc.
  destruct (send_loop E user_id (make_message title body data hp) (t :: ts)
              (mkCounters 0 0 0) w1) as [c w2].
  eapply only_tokens_changed_trans; [|exact Hsc].
  apply only_tokens_changed_refl; assumption.
Qed.

(** X19.  [notify_doctor_appointment] is a fan-out at normal priority to
    the tokens of the doctor: its messages carry the title, body and data of
    the request unchanged and no priority hint, and it changes nothing but
    the stored tokens of that doctor. *)
Theorem doctor_notification_is_normal_priority
    (E : Env) (payload : DoctorAppointmentNotificationPayload) w :
  let w' := (notify_doctor_appointment E payload w).2 in
  (exists new,
     fcm_log w' = (fcm_log w ++ new)%list /\
     Forall (carries (dp_title payload) (dp_body payload) (dp_data payload)
                     false) new /\
     Forall has_no_priority_hints new) /\
  only_tokens_changed (dp_doctor_id payload) w w'.
Proof.
  cbv zeta. unfold notify_doctor_appointment. split.
  - destruct (send_notifications_to_user_log E (dp_doctor_id payload) "doctor"
                (dp_title payload) (dp_body payload) (dp_data payload) false w)
      as (tokens & Hlog).
    eexists. split; [exact Hlog|].
    pose proof (make_message_carries (dp_title payload) (dp_body payload)
                  (dp_data payload) false tokens) as Hc.
    split; [exact Hc|].
    eapply Forall_impl; [exact Hc|]. intros m (_ & _ & _ & H). exact H.
  - apply send_notifications_to_user_scope.
Qed.

(** Without a document path the endpoint stops before its [try]. *)
Lemma update_appointment_status_bad_id (E : Env) payload w :
  firebase_initialized E = true ->
  db E = true ->
  is_document_id (appointment_id payload) = false ->
  update_appointment_status E payload w
  = (Raise (ValueError "A document must have an even number of path elements"),
     w).
Proof.
  intros Hinit Hdb Hid. unfold update_appointment_status.
  rewrite Hinit, Hdb, Hid. reflexivity.
Qed.

(** [update_appointment_status] case by case, once the two globals are
    set and the reference is built. *)
Lemma update_appointment_status_run (E : Env) payload w :
  firebase_initialized E = true ->
  db E = true ->
  is_document_id (appointment_id payload) = true ->
  update_appointment_status E payload w =
  match store_fault E (store_ops w) with
  | Some msg =>
      (Raise (HTTPException 500 ("Failed to update appointment status: "
                                   +:+ msg)), tick w)
  | None =>
      match appointments w !! appointment_id payload with
      | None => (Raise (HTTPException 404 "Appointment not found."), tick w)
      | Some d =>
          if negb (truthy (dict_get d "patientId")) then
            (Raise (HTTPException 500 "Appointment data incomplete."), tick w)
          else if doctor_mismatch (doctor_id payload) (dict_get d "doctorId")
          then
            (Raise (HTTPException 403
                      "Not authorized to update this appointment."), tick w)
          else
            match store_fault E (S (store_ops w)) with
            | Some msg =>
                (Raise (HTTPException 500
                          ("Failed to update appointment status: " +:+ msg)),
                 tick (tick w))
            | None =>
                let run :=
                  notify_patient E (dict_get d "patientId")
                                 (notif_title payload)
                                 (notif_body E payload d)
                                 (data_payload_patient payload)
                                 (written_world E payload d w) in
                match run.1 with
                | Ok notification_result =>
                    (Ok (mkWorkflowResult
                           "success"
                           ("Appointment status updated to "
                              +:+ status_value (new_status payload))
                           notification_result), run.2)
                | Raise e => update_appointment_status_handler e run.2
                end
            end
      end
  end.
Proof.
  intros Hinit Hdb Hid. unfold update_appointment_status.
  rewrite Hinit, Hdb, Hid. cbn [negb orb].
  unfold try_except, update_appointment_status_body.
  unfold mbind, M_bind, bind at 1. rewrite appointments_get_run.
  destruct (store_fault E (store_ops w)); [reflexivity|].
  destruct (appointments w !! appointment_id payload) as [d|] eqn:Hd;
    [|reflexivity].
  destruct (truthy (dict_get d "patientId")); cbn [negb]; [|reflexivity].
  destruct (doctor_mismatch (doctor_id payload) (dict_get d "doctorId"));
    [reflexivity|].
  unfold mbind, M_bind, bind at 1. rewrite appointments_update_run.
  change (store_ops (tick w)) with (S (store_ops w)).
  change (appointments (tick w)) with (appointments w).
  destruct (store_fault E (S (store_ops w))); [reflexivity|].
  rewrite Hd. unfold bind, mret, M_ret, ret.
  change (set_appointments
            (<[appointment_id payload :=
                 dict_update d (update_data payload
                                  (PTimestamp (server_time E (S (store_ops w)))))]>
               (appointments w))
            (tick (tick w)))
    with (written_world E payload d w).
  destruct (notify_patient E (dict_get d "patientId") (notif_title payload)
              (notif_body E payload d) (data_payload_patient payload)
              (written_world E payload d w)) as [[r|e] w']; reflexivity.
Qed.

(** X20.  The health check reports [Initialized] and [Connected] exactly
    when the appointment endpoint does not answer 503. *)
Theorem health_matches_gate (E : Env) init_error payload w :
  let h := read_root E init_error in
  (hs_firebase_admin_status h = "Initialized" /\
   hs_firestore_status h = "Connected")
  <-> raised_code (update_appointment_status E payload w).1 <> Some 503.
Proof.
  cbv zeta. unfold read_root. simpl.
  destruct (firebase_initialized E) eqn:Hinit, (db E) eqn:Hdb.
  - split; [intros _ | intros _; split; reflexivity].
    destruct (is_document_id (appointment_id payload)) eqn:Hid.
    2:{ rewrite update_appointment_status_bad_id by assumption. discriminate. }
    rewrite update_appointment_status_run by assumption. cbv zeta.
    destruct (notify_patient_returns E
                (dict_get (default ∅ (appointments w !! appointment_id payload))
                          "patientId")
                (notif_title payload)
                (notif_body E payload
                   (default ∅ (appointments w !! appointment_id payload)))
                (data_payload_patient payload)
                (written_world E payload
                   (default ∅ (appointments w !! appointment_id payload)) w)
                Hinit) as (r & w' & Hn & _).
    repeat case_match; simplify_eq; simpl in *; try discriminate;
      rewrite Hn in *; simpl in *; discriminate.
  - split; [intros [_ H]; discriminate H|].
    unfold update_appointment_status. rewrite Hinit, Hdb. simpl.
    intros H. contradiction H. reflexivity.
  - split; [intros [H _]; discriminate H|].
    unfold update_appointment_status. rewrite Hinit. simpl.
    intros H. contradiction H. reflexivity.
  - split; [intros [H _]; discriminate H|].
    unfold update_appointment_status. rewrite Hinit. simpl.
    intros H. contradiction H. reflexivity.
Qed.

(** ** More on the appointment workflow *)

Lemma notify_patient_frame (E : Env) patient_id title body data w :
  let w' := (notify_patient E patient_id title body data w).2 in
  appointments w' = appointments w /\
  exists tokens,
    fcm_log w' = (fcm_log w ++ map (make_message title body (Some data) true)
                                   tokens)%list.
Proof.
  cbv zeta. unfold notify_patient.
  destruct patient_id as [| | | user_id | |];
    try (split; [reflexivity | exists []; simpl; rewrite app_nil_r; reflexivity]).
  split.
  - apply (send_notifications_to_user_scope E user_id "patient" title body
             (Some data) true w).
  - apply send_notifications_to_user_log.
Qed.

(** X21.  When the store raises on the read of the appointment (its id
    being a document path, so that the read is made), or on the write of a
    request that passed the checks, the endpoint answers 500 with the text
    of the failure; the appointments and users are as before and nothing is
    sent. *)
Theorem store_failure_aborts_transition (E : Env) payload w d msg :
  firebase_initialized E = true ->
  db E = true ->
  (is_document_id (appointment_id payload) = true /\
   store_fault E (store_ops w) = Some msg) \/
  (store_fault E (store_ops w) = None /\
   store_fault E (S (store_ops w)) = Some msg /\
   appointments w !! appointment_id payload = Some d /\
   truthy (dict_get d "patientId") = true /\
   doctor_mismatch (doctor_id payload) (dict_get d "doctorId") = false) ->
  let run := update_appointment_status E payload w in
  run.1 = Raise (HTTPException 500 ("Failed to update appointment status: "
                                      +:+ msg)) /\
  appointments run.2 = appointments w /\
  users run.2 = users w /\
  fcm_log run.2 = fcm_log w.
Proof.
  intros Hinit Hdb Hfault. cbv zeta.
  assert (Hid : is_document_id (appointment_id payload) = true).
  { destruct Hfault as [[Hid _] | (_ & _ & Hd & _)]; [exact Hid|].
    eapply appointments_valid. exact Hd. }
  rewrite update_appointment_status_run by assumption.
  destruct Hfault as [[_ Hr] | (Hr & Hw & Hd & Hp & Hm)].
  - rewrite Hr. repeat split.
  - rewrite Hr, Hd, Hp, Hm, Hw. repeat split.
Qed.

Lemma store_failure_aborts_transition_witness :
  (update_appointment_status E_store_lost
     (mkPayload "A" CONFIRMED (Some "D") None) w_demo).1
  = Raise (HTTPException 500
             "Failed to update appointment status: unavailable") /\
  appointments
    (update_appointment_status E_store_lost
       (mkPayload "A" CONFIRMED (Some "D") None) w_demo).2
  = appointments w_demo.
Proof.
  destruct (store_failure_aborts_transition E_store_lost
              (mkPayload "A" CONFIRMED (Some "D") None) w_demo
              {[ "patientId" := PStr "F"; "doctorId" := PStr "D";
                 "status" := PStr "pending" ]} "unavailable" eq_refl eq_refl)
    as (Hr & Ha & _).
  - right. repeat split; reflexivity.
  - split; [exact Hr | exact Ha].
Defined.

Lemma written_field_lookup (payload : UpdateAppointmentStatusPayload)
    (d : gmap string PyVal) ts field :
  written_field field = false ->
  dict_update d (update_data payload ts) !! field = d !! field.
Proof.
  unfold written_field. intros H.
  apply orb_false_elim in H. destruct H as [H H3].
  apply orb_false_elim in H. destruct H as [H1 H2].
  apply String.eqb_neq in H1, H2, H3.
  unfold dict_update, update_data.
  destruct (cancellation_reason payload) as [r|]; simpl;
    [destruct (str_truthy r); simpl|];
    repeat (rewrite lookup_insert_ne by congruence); reflexivity.
Qed.

Lemma reason_field_lookup (payload : UpdateAppointmentStatusPayload)
    (d : gmap string PyVal) ts :
  dict_update d (update_data payload ts) !! "cancellationReason" =
  match cancellation_reason payload with
  | Some r => if str_truthy r then Some (PStr r)
              else d !! "cancellationReason"
  | None => d !! "cancellationReason"
  end.
Proof.
  unfold dict_update, update_data.
  destruct (cancellation_reason payload) as [r|]; simpl;
    [destruct (str_truthy r); simpl|];
    try (rewrite lookup_insert_eq; reflexivity);
    repeat (rewrite lookup_insert_ne by discriminate); reflexivity.
Qed.

(** The appointments after a call, case by case. *)
Lemma update_appointment_status_appointments (E : Env) payload w :
  (is_ok (update_appointment_status E payload w).1 = false /\
   appointments (update_appointment_status E payload w).2 = appointments w) \/
  exists d,
    appointments w !! appointment_id payload = Some d /\
    is_ok (update_appointment_status E payload w).1 = true /\
    appointments (update_appointment_status E payload w).2
    = <[appointment_id payload :=
          dict_update d (update_data payload
                           (PTimestamp (server_time E (S (store_ops w)))))]>
        (appointments w).
Proof.
  destruct (firebase_initialized E) eqn:Hinit.
  2:{ left. unfold update_appointment_status. rewrite Hinit. split; reflexivity. }
  destruct (db E) eqn:Hdb.
  2:{ left. unfold update_appointment_status. rewrite Hinit, Hdb.
      split; reflexivity. }
  destruct (is_document_id (appointment_id payload)) eqn:Hid.
  2:{ left. rewrite update_appointment_status_bad_id by assumption.
      split; reflexivity. }
  rewrite update_appointment_status_run by assumption. cbv zeta.
  destruct (store_fault E (store_ops w)); [left; split; reflexivity|].
  destruct (appointments w !! appointment_id payload) as [d|];
    [|left; split; reflexivity].
  destruct (negb (truthy (dict_get d "patientId")));
    [left; split; reflexivity|].
  destruct (doctor_mismatch (doctor_id payload) (dict_get d "doctorId"));
    [left; split; reflexivity|].
  destruct (store_fault E (S (store_ops w))); [left; split; reflexivity|].
  right. exists d. split; [reflexivity|].
  pose proof (notify_patient_frame E (dict_get d "patientId")
                (notif_title payload) (notif_body E payload d)
                (data_payload_patient payload) (written_world E payload d w))
    as [Ha _].
  destruct (notify_patient_returns E (dict_get d "patientId")
              (notif_title payload) (notif_body E payload d)
              (data_payload_patient payload) (written_world E payload d w)
              Hinit) as (r & w' & Hn & _).
  rewrite Hn in *. cbn [fst snd is_ok] in *. split; [reflexivity|].
  rewrite Ha. unfold written_world. apply appointments_insert. exact Hid.
Qed.

(** X22.  A call of [update_appointment_status] leaves every other
    appointment alone, creates no appointment, and in the appointment
    itself leaves every field but [status], [statusLastUpdatedAt] and
    [cancellationReason] as it was; without a reason in the request an
    earlier [cancellationReason] stays as well. *)
Theorem transition_writes_three_fields (E : Env) payload w :
  let id := appointment_id payload in
  let w' := (update_appointment_status E payload w).2 in
  (forall id', id' <> id -> appointments w' !! id' = appointments w !! id') /\
  (appointments w !! id = None -> appointments w' !! id = None) /\
  (forall field, written_field field = false ->
     (appointments w' !! id) ≫= (.!! field)
     = (appointments w !! id) ≫= (.!! field)) /\
  (reason_given payload = false ->
   (appointments w' !! id) ≫= (.!! "cancellationReason")
   = (appointments w !! id) ≫= (.!! "cancellationReason")).
Proof.
  cbv zeta.
  destruct (update_appointment_status_appointments E payload w)
    as [[_ Hsame] | (d & Hd & _ & Hnew)].
  - rewrite Hsame. repeat split; auto.
  - rewrite Hnew. repeat split.
    + intros id' Hne. apply lookup_insert_ne. congruence.
    + congruence.
    + intros field Hf. rewrite lookup_insert_eq, Hd.
      cbn [mbind option_bind].
      apply written_field_lookup. exact Hf.
    + intros Hr. rewrite lookup_insert_eq, Hd.
      cbn [mbind option_bind].
      rewrite reason_field_lookup. unfold reason_given in Hr.
      destruct (cancellation_reason payload) as [r|]; [|reflexivity].
      rewrite Hr. reflexivity.
Qed.

Lemma notif_body_without_reason (E : Env) payload d reason :
  is_declined_doctor (new_status payload) = false ->
  notif_body E (with_reason payload reason) d = notif_body E payload d.
Proof.
  unfold notif_body, with_reason. simpl. intros ->. simpl.
  destruct reason, (cancellation_reason payload); reflexivity.
Qed.

(** X23.  A non-empty reason is stored with the appointment whatever the
    new status is, but it is part of the notification text only for
    [declined_doctor]: for every other status the text is the one of the
    request without reason. *)
Theorem reason_stored_always_told_on_decline (E : Env) payload w r :
  cancellation_reason payload = Some r ->
  r <> "" ->
  (is_ok (update_appointment_status E payload w).1 = true ->
   (appointments (update_appointment_status E payload w).2
      !! appointment_id payload) ≫= (.!! "cancellationReason")
   = Some (PStr r)) /\
  (is_declined_doctor (new_status payload) = false ->
   forall d, notif_body E payload d
             = notif_body E (with_reason payload None) d) /\
  (is_declined_doctor (new_status payload) = true ->
   forall d, notif_body E payload d
             = notif_body E (with_reason payload None) d
               +:+ " Reason: " +:+ r).
Proof.
  intros Hr Hne. apply str_truthy_nonempty in Hne. repeat split.
  - intros Hok.
    destruct (update_appointment_status_appointments E payload w)
      as [[Hno _] | (d & Hd & _ & Hnew)]; [congruence|].
    rewrite Hnew, lookup_insert_eq. cbn [mbind option_bind].
    rewrite reason_field_lookup, Hr, Hne. reflexivity.
  - intros Hd d. symmetry. apply notif_body_without_reason. exact Hd.
  - intros Hd d. unfold notif_body, with_reason. simpl.
    rewrite Hr, Hd, Hne. reflexivity.
Qed.

Lemma reason_stored_always_told_on_decline_witness :
  (appointments
     (update_appointment_status
        E_up (mkPayload "A" CANCELLED_PATIENT None (Some "travelling")) w_demo).2
     !! "A") ≫= (.!! "cancellationReason")
  = Some (PStr "travelling") /\
  notif_body E_up (mkPayload "A" CANCELLED_PATIENT None (Some "travelling")) ∅
  = "Your appointment with Dr. your doctor has been cancelled_patient.".
Proof.
  destruct (reason_stored_always_told_on_decline E_up
              (mkPayload "A" CANCELLED_PATIENT None (Some "travelling"))
              w_demo "travelling" eq_refl)
    as (Hstored & Htold & _); [discriminate|].
  split.
  - apply Hstored. reflexivity.
  - rewrite (Htold eq_refl). reflexivity.
Defined.

(** The log and the users after a call of the endpoint. *)
Lemma update_appointment_status_effects (E : Env) payload w :
  let w' := (update_appointment_status E payload w).2 in
  (exists tokens body,
     fcm_log w'
     = (fcm_log w ++ map (make_message (notif_title payload) body
                            (Some (data_payload_patient payload)) true)
                         tokens)%list) /\
  (forall d uid,
     appointments w !! appointment_id payload = Some d ->
     dict_get d "patientId" <> PStr uid ->
     users w' !! uid = users w !! uid) /\
  (appointments w !! appointment_id payload = None -> users w' = users w).
Proof.
  cbv zeta.
  assert (Hnone : forall w0 : World,
            fcm_log w0 = fcm_log w ->
            exists tokens body,
              fcm_log w0
              = (fcm_log w ++ map (make_message (notif_title payload) body
                                     (Some (data_payload_patient payload)) true)
                                  tokens)%list).
  { intros w0 H. exists [], "". simpl. rewrite app_nil_r. exact H. }
  destruct (firebase_initialized E) eqn:Hinit.
  2:{ unfold update_appointment_status. rewrite Hinit. simpl.
      split; [apply Hnone; reflexivity | split; reflexivity]. }
  destruct (db E) eqn:Hdb.
  2:{ unfold update_appointment_status. rewrite Hinit, Hdb. simpl.
      split; [apply Hnone; reflexivity | split; reflexivity]. }
  destruct (is_document_id (appointment_id payload)) eqn:Hid.
  2:{ rewrite update_appointment_status_bad_id by assumption. simpl.
      split; [apply Hnone; reflexivity | split; reflexivity]. }
  rewrite update_appointment_status_run by assumption. cbv zeta.
  destruct (store_fault E (store_ops w));
    [split; [apply Hnone; reflexivity | split; reflexivity]|].
  destruct (appointments w !! appointment_id payload) as [d|] eqn:Hd;
    [|split; [apply Hnone; reflexivity | split; reflexivity]].
  destruct (negb (truthy (dict_get d "patientId")));
    [split; [apply Hnone; reflexivity | split; [reflexivity | discriminate]]|].
  destruct (doctor_mismatch (doctor_id payload) (dict_get d "doctorId"));
    [split; [apply Hnone; reflexivity | split; [reflexivity | discriminate]]|].
  destruct (store_fault E (S (store_ops w)));
    [split; [apply Hnone; reflexivity | split; [reflexivity | discriminate]]|].
  destruct (notify_patient_returns E (dict_get d "patientId")
              (notif_title payload) (notif_body E payload d)
              (data_payload_patient payload) (written_world E payload d w)
              Hinit) as (nr & w' & Hn & _).
  pose proof (notify_patient_frame E (dict_get d "patientId")
                (notif_title payload) (notif_body E payload d)
                (data_payload_patient payload) (written_world E payload d w))
    as [_ (tokens & Hlog)].
  assert (Husers : forall uid, dict_get d "patientId" <> PStr uid ->
            users (notify_patient E (dict_get d "patientId")
                     (notif_title payload) (notif_body E payload d)
                     (data_payload_patient payload)
                     (written_world E payload d w)).2 !! uid
            = users w !! uid).
  { intros uid Hne. unfold notify_patient.
    destruct (dict_get d "patientId") as [| | | pid | |]; try reflexivity.
    pose proof (send_notifications_to_user_scope E pid "patient"
                  (notif_title payload) (notif_body E payload d)
                  (Some (data_payload_patient payload)) true
                  (written_world E payload d w)) as (Ho & _).
    rewrite Ho by congruence. reflexivity. }
  rewrite Hn in *. simpl in *. split; [|split].
  - exists tokens, (notif_body E payload d). exact Hlog.
  - intros d0 uid Hd0 Hne. inversion Hd0; subst d0. apply Husers. exact Hne.
  - discriminate.
Qed.

(** X24.  Whatever [update_appointment_status] sends, it sends at high
    priority, under the title of the new status and with the data of the
    request (type, appointment id, new status, route); and the only user
    document it can change is the one of the appointment's patient. *)
Theorem workflow_notifies_patient_only (E : Env) payload w :
  let w' := (update_appointment_status E payload w).2 in
  (exists new,
     fcm_log w' = (fcm_log w ++ new)%list /\
     Forall (workflow_message payload) new) /\
  (forall d uid,
     appointments w !! appointment_id payload = Some d ->
     dict_get d "patientId" <> PStr uid ->
     users w' !! uid = users w !! uid) /\
  (appointments w !! appointment_id payload = None -> users w' = users w).
Proof.
  cbv zeta.
  destruct (update_appointment_status_effects E payload w)
    as ((tokens & body & Hlog) & Hu & Hn).
  split; [|split; assumption].
  eexists. split; [exact Hlog|].
  apply Forall_forall. intros m Hm. apply list_elem_of_fmap in Hm.
  destruct Hm as (t & -> & _). unfold workflow_message, make_message. simpl.
  repeat split.
Qed.

Lemma update_data_ignores_status (payload : UpdateAppointmentStatusPayload)
    (d : gmap string PyVal) v ts :
  dict_update (<["status" := v]> d) (update_data payload ts)
  = dict_update d (update_data payload ts).
Proof.
  unfold dict_update, update_data. simpl. rewrite insert_insert_eq.
  reflexivity.
Qed.

Lemma dict_get_insert_ne (d : gmap string PyVal) k k' v :
  k <> k' -> dict_get (<[k := v]> d) k' = dict_get d k'.
Proof. intros H. unfold dict_get. rewrite lookup_insert_ne by exact H. reflexivity. Qed.

(** X25.  The endpoint enforces no table of transitions: the status the
    appointment holds has no part in the outcome.  With any other stored
    status the answer is the same, and after a call that succeeds the whole
    world is the same. *)
Theorem transition_ignores_stored_status (E : Env) payload w d v :
  appointments w !! appointment_id payload = Some d ->
  let w2 := with_stored_status w (appointment_id payload) d v in
  (update_appointment_status E payload w2).1
  = (update_appointment_status E payload w).1 /\
  (is_ok (update_appointment_status E payload w).1 = true ->
   (update_appointment_status E payload w2).2
   = (update_appointment_status E payload w).2).
Proof.
  intros Hd. cbv zeta.
  destruct (firebase_initialized E) eqn:Hinit.
  2:{ unfold update_appointment_status. rewrite Hinit. simpl.
      split; [reflexivity | discriminate]. }
  destruct (db E) eqn:Hdb.
  2:{ unfold update_appointment_status. rewrite Hinit, Hdb. simpl.
      split; [reflexivity | discriminate]. }
  pose proof (appointments_valid _ _ _ Hd) as Hid.
  rewrite !update_appointment_status_run by assumption. cbv zeta.
  change (store_ops (with_stored_status w (appointment_id payload) d v))
    with (store_ops w).
  assert (Hd2 : appointments (with_stored_status w (appointment_id payload) d v)
                  !! appointment_id payload = Some (<["status" := v]> d)).
  { unfold with_stored_status. rewrite appointments_insert by exact Hid.
    apply lookup_insert_eq. }
  rewrite Hd2, Hd. rewrite !dict_get_insert_ne by discriminate.
  assert (Hw : written_world E payload (<["status" := v]> d)
                 (with_stored_status w (appointment_id payload) d v)
               = written_world E payload d w).
  { unfold written_world.
    replace (appointments (with_stored_status w (appointment_id payload) d v))
      with (<[appointment_id payload := <["status" := v]> d]> (appointments w))
      by (symmetry; apply appointments_insert; exact Hid).
    rewrite insert_insert_eq, update_data_ignores_status. reflexivity. }
  assert (Hb : notif_body E payload (<["status" := v]> d)
               = notif_body E payload d).
  { unfold notif_body. rewrite lookup_insert_ne by discriminate. reflexivity. }
  rewrite Hw, Hb.
  destruct (store_fault E (store_ops w)); [split; [reflexivity | discriminate]|].
  destruct (negb (truthy (dict_get d "patientId")));
    [split; [reflexivity | discriminate]|].
  destruct (doctor_mismatch (doctor_id payload) (dict_get d "doctorId"));
    [split; [reflexivity | discriminate]|].
  destruct (store_fault E (S (store_ops w)));
    [split; [reflexivity | discriminate]|].
  split; reflexivity.
Qed.

Lemma transition_ignores_stored_status_witness :
  (update_appointment_status
     E_up (mkPayload "A" PENDING (Some "D") None)
     (with_stored_status w_demo "A"
        {[ "patientId" := PStr "F"; "doctorId" := PStr "D";
           "status" := PStr "pending" ]} (PStr "completed"))).1
  = (update_appointment_status
       E_up (mkPayload "A" PENDING (Some "D") None) w_demo).1.
Proof.
  apply (transition_ignores_stored_status E_up
           (mkPayload "A" PENDING (Some "D") None) w_demo
           {[ "patientId" := PStr "F"; "doctorId" := PStr "D";
              "status" := PStr "pending" ]} (PStr "completed")).
  reflexivity.
Defined.

(** X12.  While [firebase_initialized] is false, the fan-out, the doctor
    endpoint, the direct endpoint and the appointment endpoint all answer
    503 and leave the world exactly as it was: no store call, no send. *)
Theorem uninitialised_service_refuses
    (E : Env) init_error exn_text
    user_id user_type title body data hp doctor_payload direct_payload
    payload w :
  firebase_initialized E = false ->
  raised_code (send_notifications_to_user E user_id user_type title body
                                          data hp w).1 = Some 503 /\
  (send_notifications_to_user E user_id user_type title body data hp w).2 = w /\
  raised_code (notify_doctor_appointment E doctor_payload w).1 = Some 503 /\
  (notify_doctor_appointment E doctor_payload w).2 = w /\
  raised_code (send_fcm_notification_direct E init_error exn_text
                                            direct_payload w).1 = Some 503 /\
  (send_fcm_notification_direct E init_error exn_text direct_payload w).2 = w /\
  raised_code (update_appointment_status E payload w).1 = Some 503 /\
  (update_appointment_status E payload w).2 = w.
Proof.
  intros Hinit.
  unfold notify_doctor_appointment, send_notifications_to_user,
    send_fcm_notification_direct, update_appointment_status.
  rewrite Hinit. simpl. repeat split.
Qed.

Lemma uninitialised_service_refuses_witness :
  raised_code (update_appointment_status
                 E_down (mkPayload "A" CONFIRMED None None) w_demo).1
  = Some 503 /\
  (send_notifications_to_user E_down "R" "doctor" "Hello" "World" None false
                              w_demo).2 = w_demo.
Proof.
  destruct (uninitialised_service_refuses E_down "None" (fun _ => "")
              "R" "doctor" "Hello" "World" None false
              (mkDoctorPayload "R" "Hello" "World" None)
              (mkTargetted "t1" "Hello" "World" None)
              (mkPayload "A" CONFIRMED None None) w_demo eq_refl)
    as (_ & Hw & _ & _ & _ & _ & Hc & _).
  split; [exact Hc | exact Hw].
Defined.

Lemma prune_touches_one_field_witness :
  users (remove_unregistered_token E_up "R" "t2" w_demo).2 !! "S"
  = users w_demo !! "S".
Proof.
  apply (prune_touches_one_field E_up "R" "t2" w_demo). discriminate.
Defined.

Lemma transition_writes_three_fields_witness :
  (appointments
     (update_appointment_status
        E_up (mkPayload "A" CONFIRMED (Some "D") None) w_demo).2 !! "A")
    ≫= (.!! "doctorId")
  = (appointments w_demo !! "A") ≫= (.!! "doctorId").
Proof.
  apply (transition_writes_three_fields E_up
           (mkPayload "A" CONFIRMED (Some "D") None) w_demo).
  reflexivity.
Defined.

Lemma workflow_notifies_patient_only_witness :
  users (update_appointment_status
           E_up (mkPayload "A" CONFIRMED (Some "D") None) w_demo).2 !! "R"
  = users w_demo !! "R".
Proof.
  apply (proj1 (proj2 (workflow_notifies_patient_only E_up
                         (mkPayload "A" CONFIRMED (Some "D") None) w_demo))
           {[ "patientId" := PStr "F"; "doctorId" := PStr "D";
              "status" := PStr "pending" ]} "R").
  - reflexivity.
  - vm_compute. discriminate.
Defined.
